(** * Myopia-Prediction-model: feature pipeline, prediction contract and
      derived analytics

    A shallow embedding of [model.py] (class [MyopiaPredictionModel]) and of
    the analytics and request path of [api_server.py].

    Numbers.  Python floats are modelled as exact rationals ([Q]); the
    values that pandas/numpy columns can additionally hold (NaN, the two
    infinities) are the extra constructors of [fval].  Rounding error of
    binary floating point and signed zeros are not modelled; what is
    stated about values that went through [round] is stated up to one
    unit of the last digit and for inputs of ordinary size, so that it
    does not depend on them.

    Exceptions.  Code that can raise returns [exc A]; a Python
    [try: ... except: ...] is [try_except]. *)

From stdpp Require Import base option list strings gmap.
From Stdlib Require Import Ascii Sorted QArith Qround Qabs Lqa.

Open Scope Q_scope.

(** ** Python exceptions *)

Inductive pyexn : Type :=
  | ValueError
  | IndexError
  | KeyError
  | ZeroDivisionError
  | FileNotFoundError
  | UnpicklingError
  | NotFittedError
  | AttributeError
  | HTTPException.

Inductive exc (A : Type) : Type :=
  | Ret (a : A)
  | Raise (e : pyexn).

Arguments Ret {A} a.
Arguments Raise {A} e.

#[global] Instance exc_ret : MRet exc := fun A a => Ret a.

#[global] Instance exc_bind : MBind exc := fun A B f m =>
  match m with
  | Ret a => f a
  | Raise e => Raise e
  end.

(** [try: body  except: handler] with a bare [except]. *)
Definition try_except {A : Type} (body : exc A) (handler : exc A) : exc A :=
  match body with
  | Ret a => Ret a
  | Raise _ => handler
  end.

Definition returns {A : Type} (m : exc A) : Prop := exists a, m = Ret a.

(** ** Float values of a pandas column *)

Inductive fval : Type :=
  | Fin (q : Q)
  | PInf
  | NInf
  | NaN.

Definition isna (v : fval) : bool :=
  match v with NaN => true | _ => false end.

Definition fneg (a : fval) : fval :=
  match a with
  | Fin q => Fin (- q)
  | PInf => NInf
  | NInf => PInf
  | NaN => NaN
  end.

Definition fadd (a b : fval) : fval :=
  match a, b with
  | NaN, _ | _, NaN => NaN
  | Fin x, Fin y => Fin (x + y)
  | PInf, NInf | NInf, PInf => NaN
  | PInf, _ | _, PInf => PInf
  | NInf, _ | _, NInf => NInf
  end.

Definition fsub (a b : fval) : fval :=
  match a, b with
  | Fin x, Fin y => Fin (x - y)
  | _, _ => fadd a (fneg b)
  end.

Definition fsign_mul (pos : bool) (a : fval) : fval :=
  if pos then a else fneg a.

Definition fmul (a b : fval) : fval :=
  match a, b with
  | NaN, _ | _, NaN => NaN
  | Fin x, Fin y => Fin (x * y)
  | Fin x, i | i, Fin x =>
      if Qeq_bool x 0 then NaN
      else fsign_mul (if Qlt_le_dec 0 x then true else false) i
  | PInf, i => i
  | NInf, i => fneg i
  end.

(** numpy true division: a zero divisor gives an infinity or NaN, it does
    not raise. *)
Definition fdiv (a b : fval) : fval :=
  match a, b with
  | NaN, _ | _, NaN => NaN
  | Fin x, Fin y =>
      if Qeq_bool y 0 then
        (if Qeq_bool x 0 then NaN
         else if Qlt_le_dec 0 x then PInf else NInf)
      else Fin (x / y)
  | Fin _, _ => Fin 0
  | i, Fin y => fsign_mul (if Qlt_le_dec y 0 then false else true) i
  | _, _ => NaN
  end.

Definition fabs (a : fval) : fval :=
  match a with
  | Fin q => Fin (Qabs q)
  | PInf | NInf => PInf
  | NaN => NaN
  end.

(** Comparisons: every ordered comparison with NaN is [False], [!=] with
    NaN is [True]. *)
Definition flt (a b : fval) : bool :=
  match a, b with
  | NaN, _ | _, NaN => false
  | Fin x, Fin y => if Qlt_le_dec x y then true else false
  | NInf, NInf | PInf, _ => false
  | NInf, _ | _, PInf => true
  | _, NInf => false
  end.

Definition fgt (a b : fval) : bool := flt b a.

Definition fle (a b : fval) : bool :=
  match a, b with
  | NaN, _ | _, NaN => false
  | _, _ => negb (flt b a)
  end.

Definition fge (a b : fval) : bool := fle b a.

Definition fne (a b : fval) : bool :=
  match a, b with
  | Fin x, Fin y => negb (Qeq_bool x y)
  | PInf, PInf | NInf, NInf => false
  | _, _ => true
  end.

(** [bool.astype(int)] and [bool * k]. *)
Definition b2q (b : bool) : Q := if b then 1 else 0.

(** [clip] on exact numbers: [np.clip(x, lo, hi)]. *)
Definition clip (x lo hi : Q) : Q :=
  if Qlt_le_dec x lo then lo
  else if Qlt_le_dec hi x then hi
  else x.

(** [Series.clip(lo, hi)]: missing values stay missing. *)
Definition fclip (a : fval) (lo hi : Q) : fval :=
  match a with
  | Fin x => Fin (clip x lo hi)
  | PInf => Fin hi
  | NInf => Fin lo
  | NaN => NaN
  end.

(** Pointwise comparison of column values, up to the representation of
    the rational. *)
Definition feq (a b : fval) : Prop :=
  match a, b with
  | Fin x, Fin y => x == y
  | PInf, PInf | NInf, NInf | NaN, NaN => True
  | _, _ => False
  end.

(** Python's [round(x, ndigits)]: to the nearest multiple of
    [10^-ndigits], ties to the even one.  This is the rounding of the
    exact number: a binary float that stands for a decimal tie (1.725,
    22.765) lies a little to one side of it and Python rounds it to that
    side, so at and next to a tie the last digit can be the other
    neighbour.  Statements about rounded values are therefore made up to
    one unit of the last digit, or where the argument is far from a
    tie. *)
Definition round_half_even (y : Q) : Z :=
  let f := Qfloor y in
  let r := y - inject_Z f in
  if Qlt_le_dec r (1 # 2) then f
  else if Qlt_le_dec (1 # 2) r then (f + 1)%Z
  else if Z.even f then f else (f + 1)%Z.

Fixpoint pow10 (n : nat) : positive :=
  match n with
  | O => 1%positive
  | S k => (10 * pow10 k)%positive
  end.

Definition py_round (x : Q) (ndigits : nat) : Q :=
  let s := pow10 ndigits in
  round_half_even (x * inject_Z (Zpos s)) # s.

(** ** Python [str] methods used by the parsers (ASCII) *)

Module PyStr.

Definition in_range (lo hi : nat) (c : ascii) : bool :=
  (lo <=? nat_of_ascii c)%nat && (nat_of_ascii c <=? hi)%nat.

Definition upper_char (c : ascii) : ascii :=
  if in_range 97 122 c then ascii_of_nat (nat_of_ascii c - 32) else c.

Definition lower_char (c : ascii) : ascii :=
  if in_range 65 90 c then ascii_of_nat (nat_of_ascii c + 32) else c.

Fixpoint map_chars (f : ascii -> ascii) (s : string) : string :=
  match s with
  | EmptyString => EmptyString
  | String c r => String (f c) (map_chars f r)
  end.

Definition upper : string -> string := map_chars upper_char.
Definition lower : string -> string := map_chars lower_char.

(** [sub in s] *)
Fixpoint contains (sub s : string) : bool :=
  String.prefix sub s ||
  match s with
  | EmptyString => false
  | String _ r => contains sub r
  end.

(** [s.replace(old, new)] for a non-empty [old]: the occurrences are
    taken left to right and do not overlap; [skip] counts the characters
    of the current occurrence that are still to be dropped. *)
Fixpoint replace_from (old new : string) (skip : nat) (s : string) : string :=
  match s with
  | EmptyString => EmptyString
  | String c r =>
      match skip with
      | S k => replace_from old new k r
      | O =>
          if String.prefix old s
          then new +:+ replace_from old new (String.length old - 1) r
          else String c (replace_from old new 0 r)
      end
  end.

Definition replace (old new s : string) : string := replace_from old new 0 s.

Definition is_space (c : ascii) : bool :=
  in_range 9 13 c || in_range 28 32 c.

Fixpoint lstrip (s : string) : string :=
  match s with
  | EmptyString => EmptyString
  | String c r => if is_space c then lstrip r else s
  end.

Fixpoint rev_onto (acc s : string) : string :=
  match s with
  | EmptyString => acc
  | String c r => rev_onto (String c acc) r
  end.

Definition rev (s : string) : string := rev_onto EmptyString s.

(** [s.strip()] *)
Definition strip (s : string) : string := rev (lstrip (rev (lstrip s))).

(** [s.split(sep)[0]] for a non-empty [sep]: what precedes the first
    occurrence of [sep], the whole string when there is none. *)
Fixpoint split_head (sep s : string) : string :=
  if String.prefix sep s then EmptyString
  else match s with
       | EmptyString => EmptyString
       | String c r => String c (split_head sep r)
       end.

Definition is_digit (c : ascii) : bool := in_range 48 57 c.

(** The longest run of digits at the front, and the rest. *)
Fixpoint span_digits (s : string) : string * string :=
  match s with
  | EmptyString => (EmptyString, EmptyString)
  | String c r =>
      if is_digit c
      then let '(d, rest) := span_digits r in (String c d, rest)
      else (EmptyString, s)
  end.

(** One match of the pattern [\d+(?:\.\d+)?] starting at a digit. *)
Definition number_at (s : string) : string :=
  let '(d, rest) := span_digits s in
  match rest with
  | String "."%char rest' =>
      let '(d2, _) := span_digits rest' in
      match d2 with
      | EmptyString => d
      | _ => d +:+ "." +:+ d2
      end
  | _ => d
  end.

(** [re.findall(r'\d+(?:\.\d+)?', s)], first element ([None]: the list
    is empty). *)
Fixpoint first_number (s : string) : option string :=
  match s with
  | EmptyString => None
  | String c r => if is_digit c then Some (number_at s) else first_number r
  end.

End PyStr.

(** ** model.py *)

(** One cell of the spreadsheet, as pandas hands it to a parser: missing
    ([None]/NaN), a number, or text. *)
Inductive raw : Type :=
  | RMissing
  | RNum (q : Q)
  | RStr (s : string).

Module Model.

(** One row of the renamed data frame of [load_and_preprocess_data]. *)
Record RawClinicalRecord : Type := {
  r_age : raw;
  r_gender : raw;
  r_age_diagnosis : raw;
  r_myopic_parents : raw;
  r_outdoor_time : raw;
  r_screen_time : raw;
  r_myopia_control : raw;
  r_re_spherical : raw;
  r_re_cylinder : raw;
  r_le_spherical : raw;
  r_le_cylinder : raw;
  r_re_axial_length : raw;
  r_le_axial_length : raw;
  r_wearing_time : raw;
  r_qol_score : raw
}.

(** One row of the data frame built by [_process_features]. *)
Record Processed : Type := {
  age : fval;
  age_diagnosis : fval;
  age_at_diagnosis : fval;
  years_since_diagnosis : fval;
  gender : fval;
  myopic_parents : Z;
  outdoor_hours : fval;
  screen_hours : fval;
  screen_outdoor_ratio : fval;
  had_myopia_control : Z;
  re_spherical : fval;
  le_spherical : fval;
  avg_spherical : fval;
  myopia_severity : fval;
  re_cylinder : fval;
  le_cylinder : fval;
  has_astigmatism : Z;
  re_axial_length : fval;
  le_axial_length : fval;
  avg_axial_length : fval;
  axial_length_abnormal : Z;
  wearing_hours : fval;
  compliance_score : fval;
  qol_score : fval
}.

Definition pd_isna (v : raw) : bool :=
  match v with RMissing => true | _ => false end.

(** [_encode_myopic_parents].  For a number, [str(value).upper()] is made
    of digits, sign, point and the letters of [E], [INF], [NAN]: none of
    the words occurs in it. *)
Definition _encode_myopic_parents (value : raw) : Z :=
  match value with
  | RMissing => 0
  | RNum _ => 0
  | RStr s =>
      let value := PyStr.upper s in
      if PyStr.contains "BOTH" value || PyStr.contains "MOTHER, FATHER" value
         || PyStr.contains "FATHER, MOTHER" value
      then 2
      else if PyStr.contains "MOTHER" value || PyStr.contains "FATHER" value
              || PyStr.contains "ONE" value
      then 1
      else 0
  end%Z.

Section Parsers.

(** Python's built-in [float] on a [str]; [Raise] is its [ValueError].
    The parsers are stated for whatever it accepts. *)
Variable py_float : string -> exc fval.

(** For a number [x] the parsers go through [float(str(x))], which gives
    [x] back, and [str(x)] holds no unit token ([YR], [hr], [DS], [DC],
    [MM]); the [RNum] branches below are that path. *)

(** [_extract_age] *)
Definition _extract_age (age_str : raw) : exc fval :=
  match age_str with
  | RMissing => Ret NaN
  | RNum q => Ret (Fin q)
  | RStr s =>
      let age_str := PyStr.upper s in
      try_except
        (if PyStr.contains "YRS" age_str || PyStr.contains "YR" age_str
         then py_float (PyStr.strip
                (PyStr.replace "YR" "" (PyStr.replace "YRS" "" age_str)))
         else py_float age_str)
        (Ret NaN)
  end.

(** [_extract_hours] *)
Definition _extract_hours (time_str : raw) : exc fval :=
  match time_str with
  | RMissing => Ret NaN
  | RNum q => Ret (Fin q)
  | RStr s =>
      let time_str := PyStr.lower s in
      try_except
        (if PyStr.contains "hr" time_str
         then match PyStr.first_number time_str with
              | Some n => py_float n
              | None => py_float time_str
              end
         else py_float time_str)
        (Ret NaN)
  end.

(** The text [_extract_diopters] hands to [float]. *)
Definition diopter_text (s : string) : string :=
  let value_str := PyStr.upper s in
  let value_str :=
    if PyStr.contains "DS" value_str
    then PyStr.strip (PyStr.replace "DS" "" value_str) else value_str in
  if PyStr.contains "DC" value_str
  then PyStr.strip (PyStr.split_head "DC" value_str) else value_str.

(** [_extract_diopters] *)
Definition _extract_diopters (value : raw) : exc fval :=
  match value with
  | RMissing => Ret (Fin 0)
  | RNum q => if Qeq_bool q 0 then Ret (Fin 0) else Ret (Fin q)
  | RStr s => try_except (py_float (diopter_text s)) (Ret (Fin 0))
  end.

(** The text [_extract_axial_length] hands to [float]. *)
Definition axial_text (s : string) : string :=
  PyStr.strip (PyStr.replace "MM" "" (PyStr.upper s)).

(** [_extract_axial_length] *)
Definition _extract_axial_length (value : raw) : exc fval :=
  match value with
  | RMissing => Ret NaN
  | RNum q => Ret (Fin q)
  | RStr s => try_except (py_float (axial_text s)) (Ret NaN)
  end.

(** [df['gender'].map({'M': 1, 'F': 0, 'Male': 1, 'Female': 0})]: a value
    that is not a key becomes NaN. *)
Definition gender_map : gmap string Q :=
  list_to_map [("M", 1); ("F", 0); ("Male", 1); ("Female", 0)].

Definition map_gender (v : raw) : fval :=
  match v with
  | RStr s => match gender_map !! s with Some g => Fin g | None => NaN end
  | _ => NaN
  end.

(** [pd.to_numeric(..., errors='coerce')] *)
Definition to_numeric_coerce (v : raw) : fval :=
  match v with
  | RMissing => NaN
  | RNum q => Fin q
  | RStr s => match py_float s with Ret x => x | Raise _ => NaN end
  end.

(** [_process_features], one row, before the final [fillna]. *)
Definition _process_features (df : RawClinicalRecord) : exc Processed :=
  age ← _extract_age (r_age df);
  age_diagnosis ← _extract_age (r_age_diagnosis df);
  let years_since_diagnosis := fsub age age_diagnosis in
  let gender := map_gender (r_gender df) in
  let myopic_parents := _encode_myopic_parents (r_myopic_parents df) in
  outdoor_hours ← _extract_hours (r_outdoor_time df);
  screen_hours ← _extract_hours (r_screen_time df);
  let screen_outdoor_ratio :=
    fdiv screen_hours (fadd outdoor_hours (Fin (1 # 10))) in
  let had_myopia_control :=
    if pd_isna (r_myopia_control df) then 0%Z else 1%Z in
  re_spherical ← _extract_diopters (r_re_spherical df);
  le_spherical ← _extract_diopters (r_le_spherical df);
  let avg_spherical := fdiv (fadd re_spherical le_spherical) (Fin 2) in
  let myopia_severity := fabs avg_spherical in
  re_cylinder ← _extract_diopters (r_re_cylinder df);
  le_cylinder ← _extract_diopters (r_le_cylinder df);
  let has_astigmatism :=
    if fne re_cylinder (Fin 0) || fne le_cylinder (Fin 0)
    then 1%Z else 0%Z in
  re_axial_length ← _extract_axial_length (r_re_axial_length df);
  le_axial_length ← _extract_axial_length (r_le_axial_length df);
  let avg_axial_length :=
    fdiv (fadd re_axial_length le_axial_length) (Fin 2) in
  let axial_length_abnormal :=
    if fgt avg_axial_length (Fin (245 # 10)) then 1%Z else 0%Z in
  wearing_hours ← _extract_hours (r_wearing_time df);
  let compliance_score := fclip (fdiv wearing_hours (Fin 12)) 0 1 in
  let qol_score := to_numeric_coerce (r_qol_score df) in
  mret {| age := age; age_diagnosis := age_diagnosis;
          age_at_diagnosis := age_diagnosis;
          years_since_diagnosis := years_since_diagnosis;
          gender := gender; myopic_parents := myopic_parents;
          outdoor_hours := outdoor_hours; screen_hours := screen_hours;
          screen_outdoor_ratio := screen_outdoor_ratio;
          had_myopia_control := had_myopia_control;
          re_spherical := re_spherical; le_spherical := le_spherical;
          avg_spherical := avg_spherical;
          myopia_severity := myopia_severity;
          re_cylinder := re_cylinder; le_cylinder := le_cylinder;
          has_astigmatism := has_astigmatism;
          re_axial_length := re_axial_length;
          le_axial_length := le_axial_length;
          avg_axial_length := avg_axial_length;
          axial_length_abnormal := axial_length_abnormal;
          wearing_hours := wearing_hours;
          compliance_score := compliance_score;
          qol_score := qol_score |}.

End Parsers.

(** *** Training labels *)

Definition b2z (b : bool) : Z := if b then 1%Z else 0%Z.

(** The summands of [risk_score] in [_calculate_progression_risk], one
    per factor. *)
Definition risk_age_term (age : fval) : Z :=
  (b2z (flt age (Fin 10)) * 2
   + b2z (fge age (Fin 10) && flt age (Fin 12)) * 1)%Z.

Definition risk_screen_term (screen_hours : fval) : Z :=
  (b2z (fgt screen_hours (Fin 3)) * 1)%Z.

Definition risk_outdoor_term (outdoor_hours : fval) : Z :=
  (- (b2z (fgt outdoor_hours (Fin 2)) * 1))%Z.

Definition risk_severity_term (severity : fval) : Z :=
  (b2z (fgt severity (Fin 3)) * 2
   + b2z (fgt severity (Fin (3 # 2)) && fle severity (Fin 3)) * 1)%Z.

Definition risk_axial_term (avg_axial : fval) : Z :=
  (b2z (fgt avg_axial (Fin (245 # 10))) * 2)%Z.

Definition risk_score (df : Processed) : Z :=
  (0 + risk_age_term (age df)
     + myopic_parents df
     + risk_screen_term (screen_hours df)
     + risk_outdoor_term (outdoor_hours df)
     + risk_severity_term (myopia_severity df)
     + risk_axial_term (avg_axial_length df))%Z.

(** [pd.cut(risk_score, bins=[-inf, 2, 4, inf], labels=[0, 1, 2])] *)
Definition _calculate_progression_risk (df : Processed) : Z :=
  let s := risk_score df in
  if (s <=? 2)%Z then 0%Z else if (s <=? 4)%Z then 1%Z else 2%Z.

(** [_estimate_progression] *)
Definition _estimate_progression (df : Processed) : fval :=
  let base_progression := Fin (1 # 2) in
  let age_factor :=
    if flt (age df) (Fin 10) then Fin (3 # 2)
    else if flt (age df) (Fin 12) then Fin (12 # 10) else Fin (8 # 10) in
  let genetic_factor := Fin (1 + inject_Z (myopic_parents df) * (2 # 10)) in
  let env_factor :=
    fsub (fadd (Fin 1) (fdiv (screen_hours df) (Fin 10)))
         (fdiv (outdoor_hours df) (Fin 10)) in
  let stellest_effect := fmul (Fin (4 # 10)) (compliance_score df) in
  let progression :=
    fmul (fmul (fmul (fmul base_progression age_factor) genetic_factor)
               env_factor) stellest_effect in
  fclip progression 0 2.

(** *** Training feature matrix *)

(** [df[feature_cols]], one row. *)
Definition feature_cols (df : Processed) : list fval :=
  [ age df; age_at_diagnosis df; years_since_diagnosis df; gender df;
    Fin (inject_Z (myopic_parents df)); outdoor_hours df; screen_hours df;
    screen_outdoor_ratio df; Fin (inject_Z (had_myopia_control df));
    myopia_severity df; Fin (inject_Z (has_astigmatism df));
    avg_axial_length df; Fin (inject_Z (axial_length_abnormal df));
    wearing_hours df; compliance_score df ].

(** [X.fillna(X.median())], one row: [median] holds the column medians of
    the training set; a column without a median keeps its missing
    values. *)
Definition fillna (median row : list fval) : list fval :=
  imap (fun i v => if isna v then default NaN (median !! i) else v) row.

(** The feature row the models are fitted on, from one raw record. *)
Definition training_features (py_float : string -> exc fval)
    (median : list fval) (rec : RawClinicalRecord) : exc (list fval) :=
  df ← _process_features py_float rec;
  mret (fillna median (feature_cols df)).

(** *** Fitted estimators *)

(** A fitted [StandardScaler]: [transform] checks the number of
    features, then centres and scales. *)
Record StandardScaler : Type := {
  mean_ : list Q;
  scale_ : list Q
}.

Definition scaler_transform (s : StandardScaler) (x : list Q) : exc (list Q) :=
  if (length x =? length (mean_ s))%nat
  then Ret (zip_with (fun d sc => d / sc)
                     (zip_with (fun v m => v - m) x (mean_ s)) (scale_ s))
  else Raise ValueError.

(** A fitted classifier: the labels seen by [fit] ([classes_], sorted)
    and the probability it gives to a label. *)
Record Classifier : Type := {
  classes_ : list Z;
  proba_of : list Q -> Z -> Q
}.

Definition predict_proba (c : Classifier) (x : list Q) : list Q :=
  map (proba_of c x) (classes_ c).

(** [np.argmax]: the first position of the largest entry. *)
Fixpoint argmax_from (best : Q) (best_i i : nat) (l : list Q) : nat :=
  match l with
  | [] => best_i
  | p :: r =>
      if Qlt_le_dec best p then argmax_from p i (S i) r
      else argmax_from best best_i (S i) r
  end.

Definition argmax (l : list Q) : exc nat :=
  match l with
  | [] => Raise ValueError
  | p :: r => Ret (argmax_from p 0 1 r)
  end.

Definition clf_predict (c : Classifier) (x : list Q) : exc Z :=
  i ← argmax (predict_proba c x);
  match classes_ c !! i with
  | Some k => Ret k
  | None => Raise IndexError
  end.

Record Regressor : Type := {
  reg_predict : list Q -> Q
}.

(** What an attribute of the model object, or an entry of the persisted
    dictionary, can hold. *)
Inductive pyobj : Type :=
  | PyNone
  | PyUnfittedScaler
  | PyScaler (s : StandardScaler)
  | PyClassifier (c : Classifier)
  | PyRegressor (r : Regressor)
  | PyFrame (rows : list (string * Q)).

Record MyopiaPredictionModel : Type := {
  progression_classifier : pyobj;
  progression_regressor : pyobj;
  scaler : pyobj;
  feature_importance : pyobj
}.

(** [__init__] *)
Definition init : MyopiaPredictionModel :=
  {| progression_classifier := PyNone;
     progression_regressor := PyNone;
     scaler := PyUnfittedScaler;
     feature_importance := PyNone |}.

(** *** predict *)

Record StellestBenefit : Type := {
  without_stellest : Q;
  with_stellest : Q;
  reduction_percentage : Q
}.

Record PredictionResult : Type := {
  risk_category : string;
  risk_score_out : Z;
  prob_low : Q;
  prob_medium : Q;
  prob_high : Q;
  estimated_progression : Q;
  stellest_effectiveness : StellestBenefit
}.

(** [l[i]] on a Python list: negative indices count from the end. *)
Definition py_index {A : Type} (l : list A) (i : Z) : exc A :=
  let n := Z.of_nat (length l) in
  let j := if (i <? 0)%Z then (n + i)%Z else i in
  if (j <? 0)%Z then Raise IndexError
  else match l !! Z.to_nat j with
       | Some a => Ret a
       | None => Raise IndexError
       end.

(** [a[i]] on a numpy vector with a literal index. *)
Definition np_index (a : list Q) (i : nat) : exc Q :=
  match a !! i with
  | Some p => Ret p
  | None => Raise IndexError
  end.

(** [_calculate_stellest_benefit] *)
Definition _calculate_stellest_benefit (patient_data : list Q)
    (current_progression : Q) : StellestBenefit :=
  let compliance_score := List.last patient_data 1 in
  let without :=
    if Qlt_le_dec 0 compliance_score
    then current_progression / ((4 # 10) * compliance_score)
    else current_progression / (4 # 10) in
  let benefit_pct :=
    if Qlt_le_dec 0 without
    then ((without - current_progression) / without) * 100
    else 0 in
  {| without_stellest := py_round without 2;
     with_stellest := py_round current_progression 2;
     reduction_percentage := py_round benefit_pct 1 |}.

Definition risk_labels : list string :=
  ["Low Risk"; "Medium Risk"; "High Risk"].

(** [predict].  An attribute that is not the expected estimator has no
    [transform]/[predict] to call. *)
Definition predict (self : MyopiaPredictionModel) (patient_data : list Q)
    : exc PredictionResult :=
  X ← match scaler self with
      | PyScaler s => scaler_transform s patient_data
      | PyUnfittedScaler => Raise NotFittedError
      | _ => Raise AttributeError
      end;
  clf ← match progression_classifier self with
        | PyClassifier c => Ret c
        | _ => Raise AttributeError
        end;
  risk_cat ← clf_predict clf X;
  let risk_probability := predict_proba clf X in
  reg ← match progression_regressor self with
        | PyRegressor r => Ret r
        | _ => Raise AttributeError
        end;
  let progression_rate := reg_predict reg X in
  label ← py_index risk_labels risk_cat;
  low ← np_index risk_probability 0;
  medium ← np_index risk_probability 1;
  high ← np_index risk_probability 2;
  mret {| risk_category := label;
          risk_score_out := risk_cat;
          prob_low := low;
          prob_medium := medium;
          prob_high := high;
          estimated_progression := py_round progression_rate 2;
          stellest_effectiveness :=
            _calculate_stellest_benefit patient_data progression_rate |}.

(** *** Persistence *)

(** What [joblib.load] finds at a path: bytes that do not unpickle, or a
    pickled dictionary. *)
Inductive file : Type :=
  | Corrupt
  | Pickled (model_data : gmap string pyobj)
  | Workbook (rows : list RawClinicalRecord).

Definition joblib_load (f : option file) : exc (gmap string pyobj) :=
  match f with
  | None => Raise FileNotFoundError
  | Some (Pickled d) => Ret d
  | Some _ => Raise UnpicklingError
  end.

(** [model_data[key]] *)
Definition getitem (d : gmap string pyobj) (key : string) : exc pyobj :=
  match d !! key with
  | Some v => Ret v
  | None => Raise KeyError
  end.

(** [save_model]: the dictionary handed to [joblib.dump]. *)
Definition save_model (self : MyopiaPredictionModel) : file :=
  Pickled (<["classifier" := progression_classifier self]>
          (<["regressor" := progression_regressor self]>
          (<["scaler" := scaler self]>
          (<["feature_importance" := feature_importance self]> ∅)))).

(** [load_model]: the object after the call, and whether the call
    raised.  The attributes are assigned one by one, so a failure part of
    the way leaves the earlier ones assigned. *)
Definition load_model (self : MyopiaPredictionModel) (f : option file)
    : MyopiaPredictionModel * exc unit :=
  match joblib_load f with
  | Raise e => (self, Raise e)
  | Ret model_data =>
    match getitem model_data "classifier" with
    | Raise e => (self, Raise e)
    | Ret c =>
      let self1 :=
        {| progression_classifier := c;
           progression_regressor := progression_regressor self;
           scaler := scaler self;
           feature_importance := feature_importance self |} in
      match getitem model_data "regressor" with
      | Raise e => (self1, Raise e)
      | Ret r =>
        let self2 :=
          {| progression_classifier := c; progression_regressor := r;
             scaler := scaler self;
             feature_importance := feature_importance self |} in
        match getitem model_data "scaler" with
        | Raise e => (self2, Raise e)
        | Ret s =>
          let self3 :=
            {| progression_classifier := c; progression_regressor := r;
               scaler := s;
               feature_importance := feature_importance self |} in
          match getitem model_data "feature_importance" with
          | Raise e => (self3, Raise e)
          | Ret fi =>
              ({| progression_classifier := c; progression_regressor := r;
                  scaler := s; feature_importance := fi |}, Ret tt)
          end
        end
      end
    end
  end.

End Model.

(** ** api_server.py *)

Module Api.

(** [class PatientData(BaseModel)]; the numeric fields are finite
    numbers. *)
Record PatientData : Type := {
  name : option string;
  age : Q;
  gender : string;
  age_diagnosis : Q;
  myopic_parents : string;
  outdoor_hours : Q;
  screen_hours : Q;
  had_myopia_control : bool;
  re_spherical : Q;
  re_cylinder : Q;
  le_spherical : Q;
  le_cylinder : Q;
  re_axial_length : Q;
  le_axial_length : Q;
  wearing_hours : Q;
  qol_score : option Q
}.

(** *** Derived analytics *)

(** One entry of [factors]; the [description] text is not modelled. *)
Record Factor : Type := {
  factor : string;
  score : Q;
  impact : string
}.

Record RiskFactors : Type := {
  factors : list Factor;
  total_score : Q;
  max_possible_score : Q;
  risk_percentage : Q
}.

Definition age_factor (age : Q) : Factor :=
  if Qlt_le_dec age 10 then
    {| factor := "Young Age"; score := 2; impact := "High" |}
  else if Qlt_le_dec age 12 then
    {| factor := "Age"; score := 1; impact := "Medium" |}
  else
    {| factor := "Age"; score := 0; impact := "Low" |}.

Definition genetics_factor (myopic_parents_encoded : Z) : Factor :=
  if (myopic_parents_encoded =? 2)%Z then
    {| factor := "Genetics"; score := 2; impact := "High" |}
  else if (myopic_parents_encoded =? 1)%Z then
    {| factor := "Genetics"; score := 1; impact := "Medium" |}
  else
    {| factor := "Genetics"; score := 0; impact := "Low" |}.

Definition severity_factor (myopia_severity : Q) : Factor :=
  if Qlt_le_dec 3 myopia_severity then
    {| factor := "Myopia Severity"; score := 2; impact := "High" |}
  else if Qlt_le_dec (3 # 2) myopia_severity then
    {| factor := "Myopia Severity"; score := 1; impact := "Medium" |}
  else
    {| factor := "Myopia Severity"; score := 0; impact := "Low" |}.

Definition axial_factor (avg_axial_length : Q) : Factor :=
  if Qlt_le_dec (245 # 10) avg_axial_length then
    {| factor := "Axial Length"; score := 2; impact := "High" |}
  else if Qlt_le_dec 24 avg_axial_length then
    {| factor := "Axial Length"; score := 1; impact := "Medium" |}
  else
    {| factor := "Axial Length"; score := 0; impact := "Low" |}.

Definition screen_factor (screen_hours : Q) : Factor :=
  if Qlt_le_dec 4 screen_hours then
    {| factor := "Screen Time"; score := 1; impact := "High" |}
  else if Qlt_le_dec 3 screen_hours then
    {| factor := "Screen Time"; score := 1 # 2; impact := "Medium" |}
  else
    {| factor := "Screen Time"; score := 0; impact := "Low" |}.

Definition outdoor_factor (outdoor_hours : Q) : Factor :=
  if Qlt_le_dec outdoor_hours 2 then
    {| factor := "Outdoor Time"; score := 1; impact := "High" |}
  else
    {| factor := "Outdoor Time"; score := 0; impact := "Low" |}.

Definition compliance_factor (compliance_score : Q) : Factor :=
  if Qlt_le_dec compliance_score (75 # 100) then
    {| factor := "Treatment Compliance"; score := 1; impact := "High" |}
  else if Qlt_le_dec compliance_score (9 # 10) then
    {| factor := "Treatment Compliance"; score := 1 # 2; impact := "Medium" |}
  else
    {| factor := "Treatment Compliance"; score := 0; impact := "Low" |}.

(** [sum(...)]: from 0, left to right. *)
Definition py_sum (l : list Q) : Q := fold_left Qplus l 0.

(** [_calculate_risk_factors]; [avg_spherical] is passed and not used. *)
Definition _calculate_risk_factors (patient_data : PatientData)
    (avg_spherical myopia_severity avg_axial_length compliance_score : Q)
    (myopic_parents_encoded : Z) : RiskFactors :=
  let factors :=
    [ age_factor (age patient_data);
      genetics_factor myopic_parents_encoded;
      severity_factor myopia_severity;
      axial_factor avg_axial_length;
      screen_factor (screen_hours patient_data);
      outdoor_factor (outdoor_hours patient_data);
      compliance_factor compliance_score ] in
  let total_score := py_sum (map score factors) in
  {| factors := factors;
     total_score := total_score;
     max_possible_score := 10;
     risk_percentage := (total_score / 10) * 100 |}.

Record TimelineEntry : Type := {
  year : Z;
  projected_age : Q;
  severity_with_treatment : Q;
  severity_without_treatment : Q;
  saved_diopters : Q
}.

Definition years : list Z := [1; 2; 3; 5]%Z.

(** The body of the loop of [_calculate_progression_timeline]. *)
Definition timeline_entry (annual_progression current_age current_severity : Q)
    (year : Z) : TimelineEntry :=
  let projected_severity :=
    current_severity + annual_progression * inject_Z year in
  let projected_age := current_age + inject_Z year in
  let without_treatment_rate := annual_progression / (4 # 10) in
  let projected_without :=
    current_severity + without_treatment_rate * inject_Z year in
  {| year := year;
     projected_age := py_round projected_age 1;
     severity_with_treatment := py_round projected_severity 2;
     severity_without_treatment := py_round projected_without 2;
     saved_diopters := py_round (projected_without - projected_severity) 2 |}.

(** [_calculate_progression_timeline] *)
Definition _calculate_progression_timeline
    (annual_progression current_age current_severity : Q)
    : list TimelineEntry :=
  map (timeline_entry annual_progression current_age current_severity) years.

Record ComparativeStats : Type := {
  age_group : string;
  population_avg_severity : Q;
  patient_severity : Q;
  severity_difference : Q;
  severity_percentile : Q;
  normal_axial_length : Q;
  patient_axial_length : Q;
  axial_length_difference : Q;
  comparison : string
}.

Definition avg_age_severity : gmap string Q :=
  list_to_map [("8-10", 15 # 10); ("10-12", 25 # 10);
               ("12-14", 32 # 10); ("14+", 38 # 10)].

(** [_calculate_comparative_stats] *)
Definition _calculate_comparative_stats (patient_data : PatientData)
    (myopia_severity avg_axial_length : Q) : ComparativeStats :=
  let age_group :=
    if Qlt_le_dec (age patient_data) 10 then "8-10"
    else if Qlt_le_dec (age patient_data) 12 then "10-12"
    else if Qlt_le_dec (age patient_data) 14 then "12-14"
    else "14+" in
  let population_avg_severity :=
    default (25 # 10) (avg_age_severity !! age_group) in
  let normal_axial_length := 22 + age patient_data * (15 # 100) in
  {| age_group := age_group;
     population_avg_severity := population_avg_severity;
     patient_severity := myopia_severity;
     severity_difference :=
       py_round (myopia_severity - population_avg_severity) 2;
     severity_percentile :=
       if Qlt_le_dec 0 population_avg_severity
       then py_round ((myopia_severity / (population_avg_severity * 2)) * 100) 1
       else 50;
     normal_axial_length := py_round normal_axial_length 2;
     patient_axial_length := py_round avg_axial_length 2;
     axial_length_difference :=
       py_round (avg_axial_length - normal_axial_length) 2;
     comparison :=
       if Qlt_le_dec population_avg_severity myopia_severity
       then "Above Average" else "Below Average" |}.

(** *** Feature vector of a request *)

(** The local variables of [predict] up to the feature vector. *)
Record Derived : Type := {
  myopic_parents_encoded : Z;
  gender_encoded : Z;
  avg_spherical : Q;
  myopia_severity : Q;
  avg_axial_length : Q;
  years_since_diagnosis : Q;
  screen_outdoor_ratio : Q;
  compliance_score : Q;
  has_astigmatism : Z;
  axial_length_abnormal : Z
}.

Definition parents_code : gmap string Z :=
  list_to_map [("None", 0%Z); ("One", 1%Z); ("Both", 2%Z)].

(** Python's [/] on floats raises on a zero divisor. *)
Definition py_div (a b : Q) : exc Q :=
  if Qeq_bool b 0 then Raise ZeroDivisionError else Ret (a / b).

Definition derive (patient_data : PatientData) : exc Derived :=
  let myopic_parents_encoded :=
    default 0%Z (parents_code !! myopic_parents patient_data) in
  let gender_encoded :=
    if bool_decide (PyStr.upper (gender patient_data) ∈ ["M"; "MALE"])
    then 1%Z else 0%Z in
  let avg_spherical :=
    (re_spherical patient_data + le_spherical patient_data) / 2 in
  let myopia_severity := Qabs avg_spherical in
  let avg_axial_length :=
    (re_axial_length patient_data + le_axial_length patient_data) / 2 in
  let years_since_diagnosis := age patient_data - age_diagnosis patient_data in
  screen_outdoor_ratio ←
    py_div (screen_hours patient_data) (outdoor_hours patient_data + (1 # 10));
  let compliance_score := clip (wearing_hours patient_data / 12) 0 1 in
  let has_astigmatism :=
    if negb (Qeq_bool (re_cylinder patient_data) 0)
       || negb (Qeq_bool (le_cylinder patient_data) 0)
    then 1%Z else 0%Z in
  let axial_length_abnormal :=
    if Qlt_le_dec (245 # 10) avg_axial_length then 1%Z else 0%Z in
  mret {| myopic_parents_encoded := myopic_parents_encoded;
          gender_encoded := gender_encoded;
          avg_spherical := avg_spherical;
          myopia_severity := myopia_severity;
          avg_axial_length := avg_axial_length;
          years_since_diagnosis := years_since_diagnosis;
          screen_outdoor_ratio := screen_outdoor_ratio;
          compliance_score := compliance_score;
          has_astigmatism := has_astigmatism;
          axial_length_abnormal := axial_length_abnormal |}.

(** [features = [...]], "in the same order as training". *)
Definition features (patient_data : PatientData) (d : Derived) : list Q :=
  [ age patient_data;
    age_diagnosis patient_data;
    years_since_diagnosis d;
    inject_Z (gender_encoded d);
    inject_Z (myopic_parents_encoded d);
    outdoor_hours patient_data;
    screen_hours patient_data;
    screen_outdoor_ratio d;
    (if had_myopia_control patient_data then 1 else 0);
    myopia_severity d;
    inject_Z (has_astigmatism d);
    avg_axial_length d;
    inject_Z (axial_length_abnormal d);
    wearing_hours patient_data;
    compliance_score d ].

Definition build_features (patient_data : PatientData) : exc (list Q) :=
  d ← derive patient_data;
  mret (features patient_data d).

(** *** Model state of the serving process *)

(** The module-level [model] and the files next to the script. *)
Record World : Type := {
  model : option Model.MyopiaPredictionModel;
  fs : gmap string Model.file
}.

Definition excel_path : string :=
  "Stellest_Restrospective Data to Hindustan.xlsx".
Definition model_path : string := "stellest_model.pkl".

Section Serving.

Variable py_float : string -> exc fval.

(** [MyopiaPredictionModel.train_models]: the median fill and the
    scikit-learn fit on the processed rows, as the object they leave
    behind; a fit that raises is taken to leave the object as it was. *)
Variable train_models :
  Model.MyopiaPredictionModel -> list Model.Processed ->
  exc Model.MyopiaPredictionModel.

(** [load_and_preprocess_data]: [pd.read_excel], drop the row of column
    descriptions, [_process_features]. *)
Definition load_and_preprocess_data (f : option Model.file)
    : exc (list Model.Processed) :=
  match f with
  | None => Raise FileNotFoundError
  | Some (Model.Workbook rows) =>
      mapM (Model._process_features py_float) (drop 1 rows)
  | Some _ => Raise ValueError
  end.

(** The "Training new model..." branch of [load_model]: the global
    already holds [self]; a failure leaves it there. *)
Definition train_and_save (w : World) (self : Model.MyopiaPredictionModel)
    : World * exc Model.MyopiaPredictionModel :=
  match load_and_preprocess_data (fs w !! excel_path) with
  | Raise e => ({| model := Some self; fs := fs w |}, Raise e)
  | Ret df =>
      match train_models self df with
      | Raise e => ({| model := Some self; fs := fs w |}, Raise e)
      | Ret m =>
          ({| model := Some m;
              fs := <[model_path := Model.save_model m]> (fs w) |}, Ret m)
      end
  end.

(** [load_model] *)
Definition load_model (w : World) : World * exc Model.MyopiaPredictionModel :=
  match model w with
  | Some m => (w, Ret m)
  | None =>
      let self := Model.init in
      match fs w !! model_path with
      | Some f =>
          match Model.load_model self (Some f) with
          | (self', Ret _) => ({| model := Some self'; fs := fs w |}, Ret self')
          | (self', Raise _) => train_and_save w self'
          end
      | None => train_and_save w self
      end
  end.

Record Response : Type := {
  prediction : Model.PredictionResult;
  info_compliance_score : Q;
  risk_factors : RiskFactors;
  progression_timeline : list TimelineEntry;
  comparative_stats : ComparativeStats
}.

(** What [predict] computes once the model is at hand; of [patient_info]
    only the compliance score is kept, the other entries repeat the
    request and the values of [derive]. *)
Definition respond (model_instance : Model.MyopiaPredictionModel)
    (patient_data : PatientData) : exc Response :=
  d ← derive patient_data;
  prediction ← Model.predict model_instance (features patient_data d);
  let risk_factors :=
    _calculate_risk_factors patient_data (avg_spherical d)
      (myopia_severity d) (avg_axial_length d) (compliance_score d)
      (myopic_parents_encoded d) in
  let progression_timeline :=
    _calculate_progression_timeline
      (Model.estimated_progression prediction) (age patient_data)
      (myopia_severity d) in
  let comparative_stats :=
    _calculate_comparative_stats patient_data (myopia_severity d)
      (avg_axial_length d) in
  mret {| prediction := prediction;
          info_compliance_score := compliance_score d;
          risk_factors := risk_factors;
          progression_timeline := progression_timeline;
          comparative_stats := comparative_stats |}.

(** [predict]: every exception leaves as [HTTPException(500)]. *)
Definition predict (w : World) (patient_data : PatientData)
    : World * exc Response :=
  match load_model w with
  | (w', Raise _) => (w', Raise HTTPException)
  | (w', Ret model_instance) =>
      (w', try_except (respond model_instance patient_data)
                      (Raise HTTPException))
  end.

End Serving.

(** The raw record that carries the same data as a request: numbers as
    numeric cells, the two text fields as text, a myopia-control entry
    present exactly when the flag is set. *)
Definition raw_of_patient (p : PatientData) : Model.RawClinicalRecord :=
  {| Model.r_age := RNum (age p);
     Model.r_gender := RStr (gender p);
     Model.r_age_diagnosis := RNum (age_diagnosis p);
     Model.r_myopic_parents := RStr (myopic_parents p);
     Model.r_outdoor_time := RNum (outdoor_hours p);
     Model.r_screen_time := RNum (screen_hours p);
     Model.r_myopia_control :=
       if had_myopia_control p then RStr "Yes" else RMissing;
     Model.r_re_spherical := RNum (re_spherical p);
     Model.r_re_cylinder := RNum (re_cylinder p);
     Model.r_le_spherical := RNum (le_spherical p);
     Model.r_le_cylinder := RNum (le_cylinder p);
     Model.r_re_axial_length := RNum (re_axial_length p);
     Model.r_le_axial_length := RNum (le_axial_length p);
     Model.r_wearing_time := RNum (wearing_hours p);
     Model.r_qol_score :=
       match qol_score p with Some q => RNum q | None => RMissing end |}.

End Api.

(** ** A reference [float] for plain decimal literals

    Optional surrounding blanks, an optional sign, digits with an
    optional fraction; the words [nan], [inf] and [infinity] in any case.
    Exponents and digit-group underscores are left out. *)

Module DecimalFloat.

Definition digit_val (c : ascii) : Z := Z.of_nat (nat_of_ascii c - 48).

Fixpoint digits_val (acc : Z) (s : string) : Z :=
  match s with
  | EmptyString => acc
  | String c r => digits_val (10 * acc + digit_val c)%Z r
  end.

Definition unsigned (s : string) : exc fval :=
  let u := PyStr.upper s in
  if String.eqb u "NAN" then Ret NaN
  else if String.eqb u "INF" || String.eqb u "INFINITY" then Ret PInf
  else
    let '(ip, rest) := PyStr.span_digits s in
    match rest with
    | EmptyString =>
        match ip with
        | EmptyString => Raise ValueError
        | _ => Ret (Fin (inject_Z (digits_val 0 ip)))
        end
    | String "."%char rest' =>
        let '(fp, tail) := PyStr.span_digits rest' in
        match tail, (ip +:+ fp)%string with
        | EmptyString, String _ _ =>
            Ret (Fin (digits_val 0 (ip +:+ fp) # pow10 (String.length fp)))
        | _, _ => Raise ValueError
        end
    | _ => Raise ValueError
    end.

Definition py_float (s : string) : exc fval :=
  match PyStr.strip s with
  | String "-"%char r => v ← unsigned r; mret (fneg v)
  | String "+"%char r => unsigned r
  | r => unsigned r
  end.

End DecimalFloat.

(** ** report_generator.py *)

Module Report.

(** The entries of the [patient_info] dictionary that the report logic
    reads with [.get(key, default)]; [None] is an absent key. *)
Record PatientInfo : Type := {
  pi_age : option Q;
  pi_myopic_parents : option Z;
  pi_screen_hours : option Q;
  pi_outdoor_hours : option Q;
  pi_myopia_severity : option Q;
  pi_avg_axial_length : option Q;
  pi_compliance_score : option Q
}.

(** [_get_risk_color] *)
Definition color_map : gmap string string :=
  list_to_map [("Low Risk", "#06A77D"); ("Medium Risk", "#F18F01");
               ("High Risk", "#C73E1D")].

Definition _get_risk_color (risk_category : string) : string :=
  default "#000000" (color_map !! risk_category).

(** The lines of the "Risk Factor Analysis" section, with the values
    they print. *)
Inductive Bullet : Type :=
  | ParentalHistory (label : string)
  | YoungAge (age : option Q)
  | HighScreenTime (hours : option Q)
  | LimitedOutdoorTime (hours : option Q)
  | HighSeverity (diopters : option Q)
  | ElongatedAxialLength (mm : option Q).

Definition parent_labels : list string :=
  ["None"; "One parent"; "Both parents"].

(** The list [risk_factors] built in [generate_report]. *)
Definition risk_bullets (patient_info : PatientInfo) : exc (list Bullet) :=
  parents ←
    (if (0 <? default 0 (pi_myopic_parents patient_info))%Z
     then label ← Model.py_index parent_labels
                     (default 0%Z (pi_myopic_parents patient_info));
          mret [ParentalHistory label]
     else mret []);
  mret (parents
    ++ (if Qlt_le_dec (default 15 (pi_age patient_info)) 12
        then [YoungAge (pi_age patient_info)] else [])
    ++ (if Qlt_le_dec 3 (default 0 (pi_screen_hours patient_info))
        then [HighScreenTime (pi_screen_hours patient_info)] else [])
    ++ (if Qlt_le_dec (default 0 (pi_outdoor_hours patient_info)) 2
        then [LimitedOutdoorTime (pi_outdoor_hours patient_info)] else [])
    ++ (if Qlt_le_dec 3 (default 0 (pi_myopia_severity patient_info))
        then [HighSeverity (pi_myopia_severity patient_info)] else [])
    ++ (if Qlt_le_dec (245 # 10) (default 23 (pi_avg_axial_length patient_info))
        then [ElongatedAxialLength (pi_avg_axial_length patient_info)]
        else [])).

(** The follow-up interval of the "Recommended Monitoring Schedule". *)
Definition monitoring (risk_category : string) : string :=
  if String.eqb risk_category "High Risk" then "Every 3 months"
  else if String.eqb risk_category "Medium Risk" then "Every 4-6 months"
  else "Every 6 months".

(** The recommendations, by kind, with the values they print. *)
Inductive Recommendation : Type :=
  | WearLenses
  | ConsiderAtropine
  | FrequentFollowUps
  | ReduceScreenTime (hours : option Q)
  | IncreaseOutdoorTime (hours : option Q)
  | ImproveCompliance
  | MonitorAxialLength
  | ReadingDistance
  | NutritionalSupport.

(** [_generate_recommendations]; of [prediction_results] it reads the
    risk category. *)
Definition _generate_recommendations (patient_info : PatientInfo)
    (risk_category : string) : list Recommendation :=
  [WearLenses]
  ++ (if String.eqb risk_category "High Risk"
      then [ConsiderAtropine; FrequentFollowUps] else [])
  ++ (if Qlt_le_dec 3 (default 0 (pi_screen_hours patient_info))
      then [ReduceScreenTime (pi_screen_hours patient_info)] else [])
  ++ (if Qlt_le_dec (default 0 (pi_outdoor_hours patient_info)) 2
      then [IncreaseOutdoorTime (pi_outdoor_hours patient_info)] else [])
  ++ (if Qlt_le_dec (default 1 (pi_compliance_score patient_info)) (8 # 10)
      then [ImproveCompliance] else [])
  ++ (if Qlt_le_dec (245 # 10) (default 23 (pi_avg_axial_length patient_info))
      then [MonitorAxialLength] else [])
  ++ [ReadingDistance]
  ++ [NutritionalSupport].

End Report.

(** ** api_server.py, the report endpoint *)

Module ApiReport.

(** The feature list of [generate_report], written out a second time in
    the source. *)
Definition report_features (patient_data : Api.PatientData) : exc (list Q) :=
  let myopic_parents_encoded :=
    default 0%Z (Api.parents_code !! Api.myopic_parents patient_data) in
  let gender_encoded :=
    if bool_decide (PyStr.upper (Api.gender patient_data) ∈ ["M"; "MALE"])
    then 1%Z else 0%Z in
  let avg_spherical :=
    (Api.re_spherical patient_data + Api.le_spherical patient_data) / 2 in
  let myopia_severity := Qabs avg_spherical in
  let avg_axial_length :=
    (Api.re_axial_length patient_data + Api.le_axial_length patient_data) / 2 in
  let years_since_diagnosis :=
    Api.age patient_data - Api.age_diagnosis patient_data in
  screen_outdoor_ratio ←
    Api.py_div (Api.screen_hours patient_data)
               (Api.outdoor_hours patient_data + (1 # 10));
  let compliance_score := clip (Api.wearing_hours patient_data / 12) 0 1 in
  mret [ Api.age patient_data;
         Api.age_diagnosis patient_data;
         years_since_diagnosis;
         inject_Z gender_encoded;
         inject_Z myopic_parents_encoded;
         Api.outdoor_hours patient_data;
         Api.screen_hours patient_data;
         screen_outdoor_ratio;
         (if Api.had_myopia_control patient_data then 1 else 0);
         myopia_severity;
         inject_Z (if negb (Qeq_bool (Api.re_cylinder patient_data) 0)
                      || negb (Qeq_bool (Api.le_cylinder patient_data) 0)
                   then 1%Z else 0%Z);
         avg_axial_length;
         inject_Z (if Qlt_le_dec (245 # 10) avg_axial_length
                   then 1%Z else 0%Z);
         Api.wearing_hours patient_data;
         compliance_score ].

(** The entries of [patient_info] that the report logic reads, as both
    endpoints fill them. *)
Definition patient_info (patient_data : Api.PatientData) (d : Api.Derived)
    : Report.PatientInfo :=
  {| Report.pi_age := Some (Api.age patient_data);
     Report.pi_myopic_parents := Some (Api.myopic_parents_encoded d);
     Report.pi_screen_hours := Some (Api.screen_hours patient_data);
     Report.pi_outdoor_hours := Some (Api.outdoor_hours patient_data);
     Report.pi_myopia_severity := Some (Api.myopia_severity d);
     Report.pi_avg_axial_length := Some (Api.avg_axial_length d);
     Report.pi_compliance_score := Some (Api.compliance_score d) |}.

End ApiReport.

(** ** Sample inputs *)

Module Samples.

(** The end-to-end scenario of the specification: a nine-year-old, both
    parents myopic, 1 h outdoors, 5 h of screen, -4.00 D in both eyes,
    25 mm axial length, lenses worn 6 h a day. *)
Definition scenario : Api.PatientData :=
  {| Api.name := None; Api.age := 9; Api.gender := "M";
     Api.age_diagnosis := 7; Api.myopic_parents := "Both";
     Api.outdoor_hours := 1; Api.screen_hours := 5;
     Api.had_myopia_control := false;
     Api.re_spherical := -4; Api.re_cylinder := 0;
     Api.le_spherical := -4; Api.le_cylinder := 0;
     Api.re_axial_length := 25; Api.le_axial_length := 25;
     Api.wearing_hours := 6; Api.qol_score := None |}.

(** The same request with another age, and with another parental
    history. *)
Definition set_age (p : Api.PatientData) (a : Q) : Api.PatientData :=
  {| Api.name := Api.name p; Api.age := a; Api.gender := Api.gender p;
     Api.age_diagnosis := Api.age_diagnosis p;
     Api.myopic_parents := Api.myopic_parents p;
     Api.outdoor_hours := Api.outdoor_hours p;
     Api.screen_hours := Api.screen_hours p;
     Api.had_myopia_control := Api.had_myopia_control p;
     Api.re_spherical := Api.re_spherical p;
     Api.re_cylinder := Api.re_cylinder p;
     Api.le_spherical := Api.le_spherical p;
     Api.le_cylinder := Api.le_cylinder p;
     Api.re_axial_length := Api.re_axial_length p;
     Api.le_axial_length := Api.le_axial_length p;
     Api.wearing_hours := Api.wearing_hours p;
     Api.qol_score := Api.qol_score p |}.

Definition set_parents (p : Api.PatientData) (s : string) : Api.PatientData :=
  {| Api.name := Api.name p; Api.age := Api.age p;
     Api.gender := Api.gender p;
     Api.age_diagnosis := Api.age_diagnosis p;
     Api.myopic_parents := s;
     Api.outdoor_hours := Api.outdoor_hours p;
     Api.screen_hours := Api.screen_hours p;
     Api.had_myopia_control := Api.had_myopia_control p;
     Api.re_spherical := Api.re_spherical p;
     Api.re_cylinder := Api.re_cylinder p;
     Api.le_spherical := Api.le_spherical p;
     Api.le_cylinder := Api.le_cylinder p;
     Api.re_axial_length := Api.re_axial_length p;
     Api.le_axial_length := Api.le_axial_length p;
     Api.wearing_hours := Api.wearing_hours p;
     Api.qol_score := Api.qol_score p |}.

(** A spreadsheet row with units, free text and holes. *)
Definition messy_record : Model.RawClinicalRecord :=
  {| Model.r_age := RStr "9 YRS";
     Model.r_gender := RStr "female";
     Model.r_age_diagnosis := RMissing;
     Model.r_myopic_parents := RStr "Father, Mother";
     Model.r_outdoor_time := RStr "30 min";
     Model.r_screen_time := RStr "2-3 hrs";
     Model.r_myopia_control := RStr "Atropine";
     Model.r_re_spherical := RStr "-2.50 DS";
     Model.r_re_cylinder := RNum 0;
     Model.r_le_spherical := RStr "-1.00DS/-0.50DC x 90";
     Model.r_le_cylinder := RStr "-0.50 DC";
     Model.r_re_axial_length := RStr "24.31 mm";
     Model.r_le_axial_length := RStr "n/a";
     Model.r_wearing_time := RStr "14 hrs";
     Model.r_qol_score := RNum 4 |}.

(** A fitted state for 15 features: identity scaling, a classifier over
    the given labels that gives each the same probability, a regressor
    that answers [rate] everywhere. *)
Definition fitted (labels : list Z) (rate : Q) : Model.MyopiaPredictionModel :=
  {| Model.progression_classifier :=
       Model.PyClassifier
         {| Model.classes_ := labels;
            Model.proba_of := fun _ _ => 1 / inject_Z (Z.of_nat (length labels)) |};
     Model.progression_regressor :=
       Model.PyRegressor {| Model.reg_predict := fun _ => rate |};
     Model.scaler :=
       Model.PyScaler {| Model.mean_ := repeat 0 15;
                         Model.scale_ := repeat 1 15 |};
     Model.feature_importance := Model.PyFrame [] |}.

(** A thirteen-year-old with no risk factor and full wearing time. *)
Definition calm : Api.PatientData :=
  {| Api.name := None; Api.age := 13; Api.gender := "F";
     Api.age_diagnosis := 12; Api.myopic_parents := "None";
     Api.outdoor_hours := 3; Api.screen_hours := 2;
     Api.had_myopia_control := false;
     Api.re_spherical := -1; Api.re_cylinder := 0;
     Api.le_spherical := -1; Api.le_cylinder := 0;
     Api.re_axial_length := 23; Api.le_axial_length := 23;
     Api.wearing_hours := 12; Api.qol_score := None |}.

(** An eleven-year-old with one myopic parent and moderate myopia. *)
Definition moderate : Api.PatientData :=
  {| Api.name := None; Api.age := 11; Api.gender := "M";
     Api.age_diagnosis := 9; Api.myopic_parents := "One";
     Api.outdoor_hours := 1; Api.screen_hours := 4;
     Api.had_myopia_control := true;
     Api.re_spherical := -2; Api.re_cylinder := - (1 # 2);
     Api.le_spherical := -2; Api.le_cylinder := 0;
     Api.re_axial_length := 23; Api.le_axial_length := 23;
     Api.wearing_hours := 10; Api.qol_score := Some 4 |}.

(** A workbook: the row of column descriptions, then three patients
    whose rule scores give the risk labels 0, 1 and 2. *)
Definition workbook_rows : list Model.RawClinicalRecord :=
  [ {| Model.r_age := RStr "Years"; Model.r_gender := RStr "M/F";
       Model.r_age_diagnosis := RStr "Years";
       Model.r_myopic_parents := RStr "Father/Mother/Both";
       Model.r_outdoor_time := RStr "per day";
       Model.r_screen_time := RStr "per day";
       Model.r_myopia_control := RMissing;
       Model.r_re_spherical := RStr "RE SER";
       Model.r_re_cylinder := RStr "Cyl";
       Model.r_le_spherical := RStr "LE SER";
       Model.r_le_cylinder := RStr "Cyl";
       Model.r_re_axial_length := RStr "RE AL";
       Model.r_le_axial_length := RStr "LE AL";
       Model.r_wearing_time := RStr "per day";
       Model.r_qol_score := RMissing |};
    Api.raw_of_patient calm;
    Api.raw_of_patient moderate;
    Api.raw_of_patient scenario ].

(** The risk labels present in the processed rows, in increasing order:
    the [classes_] a classifier fitted on them has. *)
Definition fit_labels (df : list Model.Processed) : list Z :=
  filter (fun k => bool_decide (k ∈ map Model._calculate_progression_risk df))
         [0; 1; 2]%Z.

(** A training routine over the processed rows: no row is an error, as
    for scikit-learn; otherwise the fitted state has the labels of the
    rows as classes and a regressor that answers [rate]. *)
Definition train_on_rows (rate : Q) (self : Model.MyopiaPredictionModel)
    (df : list Model.Processed) : exc Model.MyopiaPredictionModel :=
  match df with
  | [] => Raise ValueError
  | _ :: _ => Ret (fitted (fit_labels df) rate)
  end.

(** A training routine that always ends with the same fitted state. *)
Definition train_to (m : Model.MyopiaPredictionModel)
    (self : Model.MyopiaPredictionModel) (df : list Model.Processed)
    : exc Model.MyopiaPredictionModel := Ret m.

(** The world after a successful training from [m], with no file but the
    persisted model; a world with no file at all, before and after a
    failed first call. *)
Definition trained_world (m : Model.MyopiaPredictionModel) : Api.World :=
  {| Api.model := Some m;
     Api.fs := <[Api.model_path := Model.save_model m]> ∅ |}.

Definition empty_world : Api.World := {| Api.model := None; Api.fs := ∅ |}.

Definition stuck_world : Api.World :=
  {| Api.model := Some Model.init; Api.fs := ∅ |}.

End Samples.

(** ** Statement vocabulary and proof steps *)

(** The [total_score] entry of the scorer's result. *)
Definition scorer_total (p : Api.PatientData)
    (sph sev ax cs : Q) (mp : Z) : Q :=
  Api.total_score (Api._calculate_risk_factors p sph sev ax cs mp).

(** A world whose persisted model does not unpickle, next to the
    workbook with its three patients. *)
Definition corrupt_world : Api.World :=
  {| Api.model := None;
     Api.fs := <[Api.model_path := Model.Corrupt]>
               (<[Api.excel_path := Model.Workbook Samples.workbook_rows]> ∅) |}.

(** Case analysis on the comparisons of the code under study. *)
Ltac qcases :=
  repeat match goal with
         | |- context [Qlt_le_dec ?a ?b] => destruct (Qlt_le_dec a b)
         | |- context [Z.eqb ?a ?b] => destruct (Z.eqb_spec a b)
         end; simpl.

(** Membership in a list that is written out. *)
Ltac elem_inv :=
  repeat match goal with
         | H : _ ∈ _ :: _ |- _ => inversion H; clear H; subst
         | H : _ ∈ [] |- _ => inversion H
         end.

(** Equations between rationals with integer unknowns. *)
Ltac qarith :=
  unfold Qeq, Qplus, Qminus, Qopp, Qmult, Qdiv, Qinv, inject_Z; simpl; lia.

(** * Properties *)

(** ** Helper facts *)

Lemma clip_between (x lo hi : Q) : lo <= hi -> lo <= clip x lo hi <= hi.
Proof.
  intros Hlh. unfold clip.
  destruct (Qlt_le_dec x lo); [lra|].
  destruct (Qlt_le_dec hi x); lra.
Qed.

Lemma round_half_even_integer (y : Q) (m : Z) :
  y == inject_Z m -> round_half_even y = m.
Proof.
  intros Hy. unfold round_half_even.
  assert (Hf : Qfloor y = m) by (rewrite Hy; apply Qfloor_Z).
  rewrite Hf.
  destruct (Qlt_le_dec (y - inject_Z m) (1 # 2)) as [_|Hge]; [reflexivity|].
  exfalso. lra.
Qed.


Lemma round_half_even_error (y : Q) :
  Qabs (inject_Z (round_half_even y) - y) <= 1 # 2.
Proof.
  pose proof (Qfloor_le y) as Hlo. pose proof (Qlt_floor y) as Hhi.
  rewrite inject_Z_plus in Hhi. change (inject_Z 1) with 1 in Hhi.
  unfold round_half_even. apply Qabs_Qle_condition.
  destruct (Qlt_le_dec (y - inject_Z (Qfloor y)) (1 # 2)); [split; lra|].
  destruct (Qlt_le_dec (1 # 2) (y - inject_Z (Qfloor y)));
    [rewrite inject_Z_plus; change (inject_Z 1) with 1; split; lra|].
  destruct (Z.even (Qfloor y));
    [|rewrite inject_Z_plus; change (inject_Z 1) with 1]; split; lra.
Qed.

Lemma py_round_error_2 (x : Q) : Qabs (py_round x 2 - x) <= 1 # 200.
Proof.
  pose proof (round_half_even_error (x * inject_Z 100)) as H.
  unfold py_round. change (pow10 2) with 100%positive.
  set (z := round_half_even (x * inject_Z 100)) in *.
  assert (E : z # 100 == inject_Z z * (1 # 100)) by qarith.
  rewrite E. change (inject_Z 100) with 100 in H.
  apply Qabs_Qle_condition in H. apply Qabs_Qle_condition.
  split; lra.
Qed.

Lemma py_round_error_1 (x : Q) : Qabs (py_round x 1 - x) <= 1 # 20.
Proof.
  pose proof (round_half_even_error (x * inject_Z 10)) as H.
  unfold py_round. change (pow10 1) with 10%positive.
  set (z := round_half_even (x * inject_Z 10)) in *.
  assert (E : z # 10 == inject_Z z * (1 # 10)) by qarith.
  rewrite E. change (inject_Z 10) with 10 in H.
  apply Qabs_Qle_condition in H. apply Qabs_Qle_condition.
  split; lra.
Qed.

(** A value rounded to two decimals: a whole number of hundredths, less
    than one hundredth away from what was rounded. *)
Lemma py_round_2_spec (x : Q) :
  (exists z, py_round x 2 = z # 100) /\ Qabs (py_round x 2 - x) < 1 # 100.
Proof.
  split; [eexists; reflexivity|].
  eapply Qle_lt_trans; [apply py_round_error_2|reflexivity].
Qed.

Lemma py_round_1_spec (x : Q) :
  (exists z, py_round x 1 = z # 10) /\ Qabs (py_round x 1 - x) < 1 # 10.
Proof.
  split; [eexists; reflexivity|].
  eapply Qle_lt_trans; [apply py_round_error_1|reflexivity].
Qed.

Lemma try_except_returns {A : Type} (body : exc A) (a : A) :
  returns (try_except body (Ret a)).
Proof. destruct body; simpl; eexists; reflexivity. Qed.

Lemma try_except_raise {A : Type} (body handler : exc A) (e : pyexn) :
  body = Raise e -> try_except body handler = handler.
Proof. intros ->. reflexivity. Qed.

(** ** Parental-myopia encoder *)

(** The examples of the encoder that hold: "Both", "Father, Mother",
    "Mother", the token "One", a missing cell and unrelated text. *)
Lemma encode_myopic_parents_examples :
  Model._encode_myopic_parents (RStr "Both") = 2%Z /\
  Model._encode_myopic_parents (RStr "Father, Mother") = 2%Z /\
  Model._encode_myopic_parents (RStr "Mother") = 1%Z /\
  Model._encode_myopic_parents (RStr "One") = 1%Z /\
  Model._encode_myopic_parents RMissing = 0%Z /\
  Model._encode_myopic_parents (RStr "unknown") = 0%Z.
Proof. repeat split; vm_compute; reflexivity. Qed.

(** C4 (defect).  The encoder looks for "ONE" as a substring, not as a
    token: the text "None", which names no parent and which the request
    path encodes as 0, is encoded as 1. *)
Theorem encode_myopic_parents_none_is_one :
  Model._encode_myopic_parents (RStr "None") = 1%Z /\
  Api.parents_code !! "None" = Some 0%Z.
Proof. split; vm_compute; reflexivity. Qed.

(** ** Field parsers *)

(** C8.  Whatever [float] accepts, each field parser returns a value for
    every cell (text, number or missing) and never raises; the diopter
    parser gives 0.0 for the number zero, a missing cell and text that
    [float] rejects, the axial-length parser gives the missing marker for
    a missing cell and for text that [float] rejects. *)
Theorem field_parsers_total (py_float : string -> exc fval) (v : raw) :
  (returns (Model._extract_age py_float v) /\
   returns (Model._extract_hours py_float v) /\
   returns (Model._extract_diopters py_float v) /\
   returns (Model._extract_axial_length py_float v)) /\
  Model._extract_diopters py_float (RNum 0) = Ret (Fin 0) /\
  Model._extract_diopters py_float RMissing = Ret (Fin 0) /\
  (forall s e, py_float (Model.diopter_text s) = Raise e ->
     Model._extract_diopters py_float (RStr s) = Ret (Fin 0)) /\
  Model._extract_axial_length py_float RMissing = Ret NaN /\
  (forall s e, py_float (Model.axial_text s) = Raise e ->
     Model._extract_axial_length py_float (RStr s) = Ret NaN).
Proof.
  split; [|repeat split].
  - destruct v as [|q|s]; simpl; repeat split;
      try (eexists; reflexivity); try apply try_except_returns.
    destruct (Qeq_bool q 0); eexists; reflexivity.
  - intros s e H. simpl. rewrite H. reflexivity.
  - intros s e H. simpl. rewrite H. reflexivity.
Qed.

(** An instance with the reference [float]: text without a number. *)
Lemma field_parsers_total_witness :
  returns (Model._extract_hours DecimalFloat.py_float (RStr "two hrs")) /\
  Model._extract_diopters DecimalFloat.py_float (RStr "plano") = Ret (Fin 0) /\
  Model._extract_axial_length DecimalFloat.py_float (RStr "n/a") = Ret NaN.
Proof.
  destruct (field_parsers_total DecimalFloat.py_float (RStr "two hrs"))
    as [(_ & Hh & _ & _) (_ & _ & Hd & _ & Ha)].
  split; [exact Hh|split].
  - apply (Hd "plano" ValueError). vm_compute. reflexivity.
  - apply (Ha "n/a" ValueError). vm_compute. reflexivity.
Defined.

(** ** Risk-factor scorer *)

Lemma scorer_total_unfold p sph sev ax cs mp :
  scorer_total p sph sev ax cs mp =
  0 + Api.score (Api.age_factor (Api.age p))
    + Api.score (Api.genetics_factor mp)
    + Api.score (Api.severity_factor sev)
    + Api.score (Api.axial_factor ax)
    + Api.score (Api.screen_factor (Api.screen_hours p))
    + Api.score (Api.outdoor_factor (Api.outdoor_hours p))
    + Api.score (Api.compliance_factor cs).
Proof. reflexivity. Qed.

Lemma age_score_antitone a1 a2 :
  a1 <= a2 -> Api.score (Api.age_factor a2) <= Api.score (Api.age_factor a1).
Proof. intros H. unfold Api.age_factor. qcases; lra. Qed.

Lemma severity_score_monotone s1 s2 :
  s1 <= s2 ->
  Api.score (Api.severity_factor s1) <= Api.score (Api.severity_factor s2).
Proof. intros H. unfold Api.severity_factor. qcases; lra. Qed.

Lemma axial_score_monotone x1 x2 :
  x1 <= x2 -> Api.score (Api.axial_factor x1) <= Api.score (Api.axial_factor x2).
Proof. intros H. unfold Api.axial_factor. qcases; lra. Qed.

(** X16.  The parts of the scorer's summary that hold for every input: the
    total is the sum of the seven contributions and the percentage is
    (total/10)*100; the total never exceeds 11. *)
Lemma scorer_summary p sph sev ax cs mp :
  let r := Api._calculate_risk_factors p sph sev ax cs mp in
  Api.total_score r = Api.py_sum (map Api.score (Api.factors r)) /\
  length (Api.factors r) = 7%nat /\
  Api.risk_percentage r = (Api.total_score r / 10) * 100 /\
  0 <= Api.total_score r <= 11.
Proof.
  cbv zeta. split; [reflexivity|]. split; [reflexivity|].
  split; [reflexivity|].
  fold (scorer_total p sph sev ax cs mp). rewrite scorer_total_unfold.
  unfold Api.age_factor, Api.genetics_factor, Api.severity_factor,
    Api.axial_factor, Api.screen_factor, Api.outdoor_factor,
    Api.compliance_factor.
  qcases; lra.
Qed.

(** C6 (defect).  On the end-to-end scenario every factor is at its
    highest contribution and the total is 11, above the 10 that the same
    result reports as [max_possible_score]; the percentage is 110. *)
Theorem scorer_total_exceeds_reported_maximum :
  exists d,
    Api.derive Samples.scenario = Ret d /\
    let r := Api._calculate_risk_factors Samples.scenario
               (Api.avg_spherical d) (Api.myopia_severity d)
               (Api.avg_axial_length d) (Api.compliance_score d)
               (Api.myopic_parents_encoded d) in
    Api.total_score r == 11 /\
    Api.max_possible_score r == 10 /\
    Api.max_possible_score r < Api.total_score r /\
    Api.risk_percentage r == 110.
Proof.
  eexists. split; [reflexivity|].
  repeat split; vm_compute; reflexivity.
Qed.

(** C9.  With the other inputs fixed, the total score does not decrease
    when the age decreases, when the severity increases, or when the
    average axial length increases. *)
Theorem scorer_total_monotone (p : Api.PatientData) (sph sev ax cs : Q)
    (mp : Z) (a1 a2 s1 s2 x1 x2 : Q) :
  a1 <= a2 -> s1 <= s2 -> x1 <= x2 ->
  scorer_total (Samples.set_age p a2) sph sev ax cs mp
    <= scorer_total (Samples.set_age p a1) sph sev ax cs mp /\
  scorer_total p sph s1 ax cs mp <= scorer_total p sph s2 ax cs mp /\
  scorer_total p sph sev x1 cs mp <= scorer_total p sph sev x2 cs mp.
Proof.
  intros Ha Hs Hx. rewrite !scorer_total_unfold. simpl.
  pose proof (age_score_antitone a1 a2 Ha).
  pose proof (severity_score_monotone s1 s2 Hs).
  pose proof (axial_score_monotone x1 x2 Hx).
  repeat split; lra.
Qed.

(** An instance: ages 9 and 11, severities 1 and 3.5, axial lengths 23.9
    and 24.6. *)
Lemma scorer_total_monotone_witness :
  scorer_total (Samples.set_age Samples.scenario 11) (-2) 2 (242 # 10) 1 1
    <= scorer_total (Samples.set_age Samples.scenario 9) (-2) 2 (242 # 10) 1 1 /\
  scorer_total Samples.scenario (-2) 1 (242 # 10) 1 1
    <= scorer_total Samples.scenario (-2) (7 # 2) (242 # 10) 1 1 /\
  scorer_total Samples.scenario (-2) 2 (239 # 10) 1 1
    <= scorer_total Samples.scenario (-2) 2 (246 # 10) 1 1.
Proof.
  apply (scorer_total_monotone Samples.scenario (-2) 2 (242 # 10) 1 1
           9 11 1 (7 # 2) (239 # 10) (246 # 10)); vm_compute; discriminate.
Defined.

(** C3 (counterexample).  The scorer has cut-offs the training rule does
    not have: 24.2 mm and 23 mm lie on the same side of the rule's only
    axial cut-off (24.5) and get different axial contributions; 3.5 h and
    5 h lie on the same side of the rule's only screen cut-off (3) and
    get different screen contributions. *)
Lemma scorer_thresholds_counterexample :
  (Model.risk_axial_term (Fin (242 # 10)) = Model.risk_axial_term (Fin 23) /\
   ~ Api.score (Api.axial_factor (242 # 10)) == Api.score (Api.axial_factor 23)) /\
  (Model.risk_screen_term (Fin (35 # 10)) = Model.risk_screen_term (Fin 5) /\
   ~ Api.score (Api.screen_factor (35 # 10)) == Api.score (Api.screen_factor 5)).
Proof. repeat split; vm_compute; discriminate. Qed.

(** C3 (amended).  The age, genetics (for an encoded value 0, 1 or 2) and
    severity contributions equal the terms of the training rule score,
    with the cut-offs 10 and 12, 1 and 2, 1.5 and 3.  The axial
    contribution is 2 exactly above 24.5 as in the rule, and 1 on
    (24.0, 24.5].  The screen contribution is positive exactly above 3 h
    as in the rule, but 1 only above 4 h and 0.5 on (3, 4].  The outdoor
    contribution uses the cut-off 2 and is +1 below it, where the rule
    subtracts 1 above it.  The compliance contribution is 1 below 0.75
    and 0.5 on [0.75, 0.9). *)
Theorem scorer_thresholds (a sev ax sc od cs : Q) (mp : Z) :
  (0 <= mp <= 2)%Z ->
  Api.score (Api.age_factor a) == inject_Z (Model.risk_age_term (Fin a)) /\
  Api.score (Api.genetics_factor mp) == inject_Z mp /\
  Api.score (Api.severity_factor sev)
    == inject_Z (Model.risk_severity_term (Fin sev)) /\
  (Api.score (Api.axial_factor ax) == 2 <-> Model.risk_axial_term (Fin ax) = 2%Z) /\
  (Api.score (Api.axial_factor ax) == 1 <-> 24 < ax /\ ax <= 245 # 10) /\
  (0 < Api.score (Api.screen_factor sc) <-> Model.risk_screen_term (Fin sc) = 1%Z) /\
  (Api.score (Api.screen_factor sc) == 1 <-> 4 < sc) /\
  (Api.score (Api.screen_factor sc) == 1 # 2 <-> 3 < sc /\ sc <= 4) /\
  (Api.score (Api.outdoor_factor od) == 1 <-> od < 2) /\
  (Model.risk_outdoor_term (Fin od) = (-1)%Z <-> 2 < od) /\
  (Api.score (Api.compliance_factor cs) == 1 <-> cs < 75 # 100) /\
  (Api.score (Api.compliance_factor cs) == 1 # 2 <-> 75 # 100 <= cs /\ cs < 9 # 10).
Proof.
  intros Hmp.
  unfold Api.age_factor, Api.genetics_factor, Api.severity_factor,
    Api.axial_factor, Api.screen_factor, Api.outdoor_factor,
    Api.compliance_factor, Model.risk_age_term, Model.risk_severity_term,
    Model.risk_axial_term, Model.risk_screen_term, Model.risk_outdoor_term,
    fgt, fge, fle, flt.
  repeat apply conj; qcases; try intros H; try (simpl in H);
    try (assert (mp = 0%Z) as -> by lia); subst;
    try reflexivity; try lra; try (exfalso; lra); try (split; lra);
    try discriminate H; try (exfalso; destruct H; lra).
Qed.

(** An instance: both parents myopic, 25 mm. *)
Lemma scorer_thresholds_witness :
  Api.score (Api.genetics_factor 2) == inject_Z 2 /\
  (Api.score (Api.axial_factor 25) == 2 <->
   Model.risk_axial_term (Fin 25) = 2%Z).
Proof.
  assert (Hmp : (0 <= 2 <= 2)%Z) by lia.
  destruct (scorer_thresholds 9 4 25 5 1 (1 # 2) 2 Hmp)
    as (_ & Hg & _ & Hax & _).
  split; assumption.
Defined.

(** ** Progression timeline *)




(** ** Prediction and the number of fitted classes *)




(** ** Clamp invariants *)

(** The compliance score of a request lies in [0,1]. *)
Lemma compliance_in_unit_interval (p : Api.PatientData) (d : Api.Derived) :
  Api.derive p = Ret d -> 0 <= Api.compliance_score d <= 1.
Proof.
  unfold Api.derive. destruct (Api.py_div _ _); simpl; [|discriminate].
  intros [= <-]. simpl. apply clip_between. lra.
Qed.

(** The training label of the progression rate is clamped: when it is a
    number it lies in [0,2] ("Max 2 diopters per year"). *)
Lemma training_rate_clamped (df : Model.Processed) (q : Q) :
  Model._estimate_progression df = Fin q -> 0 <= q <= 2.
Proof.
  unfold Model._estimate_progression, fclip.
  match goal with |- context [match ?v with _ => _ end = _] => destruct v end;
    intros [= <-]; try lra.
  apply clip_between. lra.
Qed.

(** C2 (defect).  [predict] returns the regressor's answer rounded to two
    decimals, without the clamp: with a fitted regressor that answers
    2.5 the request of the end-to-end scenario gets a progression rate of
    2.5, outside [0,2].  Its compliance score, 0.5, is inside [0,1]. *)
Theorem predicted_rate_not_clamped :
  exists r,
    Api.respond (Samples.fitted [0; 1; 2]%Z (5 # 2)) Samples.scenario = Ret r /\
    Model.estimated_progression (Api.prediction r) == 5 # 2 /\
    2 < Model.estimated_progression (Api.prediction r) /\
    Api.info_compliance_score r == 1 # 2.
Proof.
  eexists. split; [vm_compute; reflexivity|].
  repeat split; vm_compute; reflexivity.
Qed.

(** ** Loading the persisted state *)

(** What was saved is what is loaded. *)
Lemma load_saved_model (self m : Model.MyopiaPredictionModel) :
  Model.load_model self (Some (Model.save_model m)) = (m, Ret tt).
Proof. destruct m. reflexivity. Qed.

(** C5 (counterexample).  The persisted file does not unpickle and
    [MyopiaPredictionModel.load_model] raises, yet the server's
    [load_model] returns a model: the one it has just trained from the
    three patients of the workbook (classes 0, 1, 2), which it also
    writes over the persisted file. *)
Lemma load_failure_falls_back_to_training :
  (exists e,
     Model.load_model Model.init (Api.fs corrupt_world !! Api.model_path)
       = (Model.init, Raise e)) /\
  exists w' m,
    Api.load_model DecimalFloat.py_float (Samples.train_on_rows (1 # 2))
      corrupt_world = (w', Ret m) /\
    Api.model w' = Some m /\
    Api.fs w' !! Api.model_path = Some (Model.save_model m) /\
    Model.progression_classifier m
      = Model.progression_classifier (Samples.fitted [0; 1; 2]%Z (1 # 2)).
Proof.
  split; [eexists; vm_compute; reflexivity|].
  destruct (Api.load_model DecimalFloat.py_float (Samples.train_on_rows (1 # 2))
              corrupt_world) as [w' [m|e]] eqn:E.
  - exists w', m. split; [reflexivity|].
    vm_compute in E. injection E as <- <-.
    repeat split; vm_compute; reflexivity.
  - exfalso. vm_compute in E. discriminate E.
Qed.

Lemma getitem_Ret (d : gmap string Model.pyobj) (key : string) (v : Model.pyobj) :
  Model.getitem d key = Ret v <-> d !! key = Some v.
Proof.
  unfold Model.getitem. destruct (d !! key); split; congruence.
Qed.

(** C5 (amended).  [MyopiaPredictionModel.load_model] itself never
    retries: it returns normally exactly when the file unpickles to a
    dictionary that has the four keys, and then it takes the four stored
    objects as they are; in every other case it raises.  The server's
    [load_model] catches that failure: with no model in memory and a
    persisted file whose load raises, it trains from the workbook instead
    and, when reading and training succeed, returns the trained model and
    writes it over the persisted file. *)
Theorem load_model_failure_and_fallback
    (py_float : string -> exc fval)
    (train_models : Model.MyopiaPredictionModel -> list Model.Processed ->
                    exc Model.MyopiaPredictionModel)
    (w : Api.World) (f : Model.file)
    (self self' m : Model.MyopiaPredictionModel) (e : pyexn)
    (df : list Model.Processed) :
  Api.model w = None ->
  Api.fs w !! Api.model_path = Some f ->
  Model.load_model Model.init (Some f) = (self', Raise e) ->
  Api.load_and_preprocess_data py_float (Api.fs w !! Api.excel_path) = Ret df ->
  train_models self' df = Ret m ->
  (forall g,
     (Model.load_model self g).2 = Ret tt <->
     exists d c r s fi,
       g = Some (Model.Pickled d) /\
       d !! "classifier" = Some c /\ d !! "regressor" = Some r /\
       d !! "scaler" = Some s /\ d !! "feature_importance" = Some fi /\
       (Model.load_model self g).1 =
         {| Model.progression_classifier := c;
            Model.progression_regressor := r;
            Model.scaler := s;
            Model.feature_importance := fi |}) /\
  (forall g, (exists e', (Model.load_model self g).2 = Raise e') \/
             (Model.load_model self g).2 = Ret tt) /\
  Api.load_model py_float train_models w =
    ({| Api.model := Some m;
        Api.fs := <[Api.model_path := Model.save_model m]> (Api.fs w) |},
     Ret m).
Proof.
  intros Hnone Hf Hload Hdf Htrain.
  split; [|split].
  - intros g. unfold Model.load_model.
    destruct g as [[|d|rows]|]; simpl;
      try (split; [discriminate|intros (?&?&?&?&?&?&_); discriminate]).
    destruct (Model.getitem d "classifier") as [c|] eqn:Ec; simpl;
      [apply getitem_Ret in Ec|].
    2:{ split; [discriminate|]. intros (d'&c&r&s&fi&[= <-]&Hc&_).
        apply getitem_Ret in Hc. congruence. }
    destruct (Model.getitem d "regressor") as [r|] eqn:Er; simpl;
      [apply getitem_Ret in Er|].
    2:{ split; [discriminate|]. intros (d'&c'&r&s&fi&[= <-]&_&Hr&_).
        apply getitem_Ret in Hr. congruence. }
    destruct (Model.getitem d "scaler") as [s|] eqn:Es; simpl;
      [apply getitem_Ret in Es|].
    2:{ split; [discriminate|]. intros (d'&c'&r'&s&fi&[= <-]&_&_&Hs&_).
        apply getitem_Ret in Hs. congruence. }
    destruct (Model.getitem d "feature_importance") as [fi|] eqn:Ei; simpl;
      [apply getitem_Ret in Ei|].
    2:{ split; [discriminate|]. intros (d'&c'&r'&s'&fi&[= <-]&_&_&_&Hi&_).
        apply getitem_Ret in Hi. congruence. }
    split; [|reflexivity]. intros _. exists d, c, r, s, fi. auto 10.
  - intros g. destruct (Model.load_model self g) as [m' [[]|e']]; simpl; eauto.
  - unfold Api.load_model. rewrite Hnone, Hf, Hload.
    unfold Api.train_and_save. rewrite Hdf, Htrain. reflexivity.
Qed.

(** An instance: the persisted file does not unpickle. *)
Lemma load_model_failure_and_fallback_witness :
  exists m,
    Api.load_model DecimalFloat.py_float (Samples.train_on_rows (1 # 2))
      corrupt_world =
    ({| Api.model := Some m;
        Api.fs := <[Api.model_path := Model.save_model m]>
                    (Api.fs corrupt_world) |}, Ret m).
Proof.
  destruct (Api.load_and_preprocess_data DecimalFloat.py_float
              (Api.fs corrupt_world !! Api.excel_path)) as [df|e] eqn:Edf;
    [|exfalso; vm_compute in Edf; discriminate Edf].
  destruct (Samples.train_on_rows (1 # 2) Model.init df) as [m|e] eqn:Em.
  - exists m.
    refine (proj2 (proj2 (load_model_failure_and_fallback
              DecimalFloat.py_float (Samples.train_on_rows (1 # 2))
              corrupt_world Model.Corrupt Model.init Model.init m
              UnpicklingError df eq_refl _ eq_refl Edf Em))).
    vm_compute. reflexivity.
  - exfalso. destruct df as [|r df]; [|discriminate Em].
    vm_compute in Edf. discriminate Edf.
Defined.

(** ** Train/serve feature vector *)

Lemma fdiv_fin (x y : Q) : ~ y == 0 -> fdiv (Fin x) (Fin y) = Fin (x / y).
Proof.
  intros Hy. simpl. destruct (Qeq_bool y 0) eqn:E; [|reflexivity].
  apply Qeq_bool_iff in E. contradiction.
Qed.

Lemma extract_diopters_num (py_float : string -> exc fval) (q : Q) :
  exists r, Model._extract_diopters py_float (RNum q) = Ret (Fin r) /\
            r == q /\ Qeq_bool r 0 = Qeq_bool q 0.
Proof.
  simpl. destruct (Qeq_bool q 0) eqn:E.
  - exists 0. apply Qeq_bool_iff in E.
    split; [reflexivity|]. split; [symmetry; exact E|reflexivity].
  - exists q. split; [reflexivity|]. split; [reflexivity|exact E].
Qed.

(** C1 (amended).  For a request whose gender is one of M, F, Male,
    Female, whose parental history is One or Both, and whose outdoor
    hours are not -0.1 (where the request path divides by zero), the
    request path builds a 15-element vector that agrees, position by
    position and in the same order, with the row the training builder
    computes from the raw record carrying the same data, whatever the
    column medians and whatever [float] accepts. *)
Theorem features_match_training (py_float : string -> exc fval)
    (median : list fval) (p : Api.PatientData) :
  Api.gender p ∈ ["M"; "F"; "Male"; "Female"] ->
  Api.myopic_parents p ∈ ["One"; "Both"] ->
  ~ Api.outdoor_hours p + (1 # 10) == 0 ->
  exists v w,
    Api.build_features p = Ret v /\
    Model.training_features py_float median (Api.raw_of_patient p) = Ret w /\
    length v = 15%nat /\
    Forall2 feq (map Fin v) w.
Proof.
  intros Hg Hp Hod.
  destruct p as [nm a g ad mp od sc ctl rs rc ls lc ra la wh qol].
  simpl in *.
  unfold Api.build_features, Api.derive, Api.py_div,
    Model.training_features, Model._process_features, Api.raw_of_patient.
  cbn [Model.r_age Model.r_gender Model.r_age_diagnosis
       Model.r_myopic_parents Model.r_outdoor_time Model.r_screen_time
       Model.r_myopia_control Model.r_re_spherical Model.r_re_cylinder
       Model.r_le_spherical Model.r_le_cylinder Model.r_re_axial_length
       Model.r_le_axial_length Model.r_wearing_time Model.r_qol_score
       Api.age Api.gender Api.age_diagnosis Api.myopic_parents
       Api.outdoor_hours Api.screen_hours Api.had_myopia_control
       Api.re_spherical Api.re_cylinder Api.le_spherical Api.le_cylinder
       Api.re_axial_length Api.le_axial_length Api.wearing_hours
       Api.qol_score].
  destruct (extract_diopters_num py_float rs) as (rs' & -> & Hrs & _).
  destruct (extract_diopters_num py_float ls) as (ls' & -> & Hls & _).
  destruct (extract_diopters_num py_float rc) as (rc' & -> & _ & Hrc).
  destruct (extract_diopters_num py_float lc) as (lc' & -> & _ & Hlc).
  destruct (Qeq_bool (od + (1 # 10)) 0) eqn:E;
    [apply Qeq_bool_iff in E; contradiction|].
  cbn [Model._extract_age Model._extract_hours Model._extract_axial_length
       mbind exc_bind mret exc_ret fadd fsub fabs fclip].
  rewrite (fdiv_fin sc _ Hod).
  rewrite !fdiv_fin by (intros H; discriminate H).
  eexists; eexists. split; [reflexivity|]. split; [reflexivity|].
  split; [reflexivity|].
  unfold Api.features, Model.feature_cols, Model.fillna.
  cbn -[Qabs Qplus Qdiv Qminus clip Qeq_bool Qlt_le_dec PyStr.upper
        PyStr.contains Api.parents_code Model.gender_map lookup].
  rewrite Hrc, Hlc.
  set_unfold in Hg. set_unfold in Hp.
  repeat match goal with |- Forall2 _ _ _ => constructor end;
    cbn [feq]; try reflexivity.
  - destruct Hg as [->|[->|[->|[->|[]]]]]; vm_compute; reflexivity.
  - destruct Hp as [->|[->|[]]]; vm_compute; reflexivity.
  - destruct ctl; reflexivity.
  - rewrite Hrs, Hls. reflexivity.
  - destruct (Qlt_le_dec _ _); reflexivity.
Qed.

(** C1 (counterexample).  For the parental history "Mother" the request
    path, which knows the three words None, One and Both, encodes 0,
    while the training builder encodes 1: position 5 of the two vectors
    differs. *)
Lemma features_differ_for_free_text_parents :
  let p := Samples.set_parents Samples.scenario "Mother" in
  exists v w,
    Api.build_features p = Ret v /\
    Model.training_features DecimalFloat.py_float [] (Api.raw_of_patient p)
      = Ret w /\
    v !! 4%nat = Some (inject_Z 0) /\
    w !! 4%nat = Some (Fin (inject_Z 1)).
Proof.
  cbv zeta. eexists; eexists.
  split; [vm_compute; reflexivity|]. split; [vm_compute; reflexivity|].
  split; reflexivity.
Qed.

(** An instance: the end-to-end scenario. *)
Lemma features_match_training_witness :
  exists v w,
    Api.build_features Samples.scenario = Ret v /\
    Model.training_features DecimalFloat.py_float []
      (Api.raw_of_patient Samples.scenario) = Ret w /\
    length v = 15%nat /\
    Forall2 feq (map Fin v) w.
Proof.
  apply (features_match_training DecimalFloat.py_float [] Samples.scenario).
  - repeat constructor.
  - repeat constructor.
  - vm_compute. discriminate.
Defined.

(** * Further properties of the code *)

(** ** Rounding *)

Lemma round_half_even_comp (y y' : Q) :
  y == y' -> round_half_even y = round_half_even y'.
Proof.
  intros Hy. unfold round_half_even.
  rewrite <- (Qfloor_comp _ _ Hy).
  destruct (Qlt_le_dec (y - inject_Z (Qfloor y)) (1 # 2)),
           (Qlt_le_dec (y' - inject_Z (Qfloor y)) (1 # 2));
    try reflexivity; try (exfalso; lra).
  destruct (Qlt_le_dec (1 # 2) (y - inject_Z (Qfloor y))),
           (Qlt_le_dec (1 # 2) (y' - inject_Z (Qfloor y)));
    try reflexivity; exfalso; lra.
Qed.

Lemma py_round_comp (x x' : Q) (n : nat) :
  x == x' -> py_round x n = py_round x' n.
Proof.
  intros Hx. unfold py_round.
  rewrite (round_half_even_comp (x * _) (x' * inject_Z (Z.pos (pow10 n))));
    [reflexivity|]. rewrite Hx. reflexivity.
Qed.

Lemma round_half_even_bounds (y : Q) :
  (Qfloor y <= round_half_even y <= Qfloor y + 1)%Z.
Proof.
  unfold round_half_even.
  destruct (Qlt_le_dec _ _); [lia|].
  destruct (Qlt_le_dec _ _); [lia|].
  destruct (Z.even _); lia.
Qed.

Lemma round_half_even_mono (a b : Q) :
  a <= b -> (round_half_even a <= round_half_even b)%Z.
Proof.
  intros Hab.
  pose proof (Qfloor_resp_le _ _ Hab) as Hf.
  destruct (Z.eq_dec (Qfloor a) (Qfloor b)) as [E|NE].
  - unfold round_half_even. rewrite <- E.
    destruct (Qlt_le_dec (a - inject_Z (Qfloor a)) (1 # 2)),
             (Qlt_le_dec (b - inject_Z (Qfloor a)) (1 # 2));
      try lia; try (exfalso; lra).
    + destruct (Qlt_le_dec (1 # 2) (b - inject_Z (Qfloor a))); [lia|].
      destruct (Z.even (Qfloor a)); lia.
    + destruct (Qlt_le_dec (1 # 2) (a - inject_Z (Qfloor a))),
               (Qlt_le_dec (1 # 2) (b - inject_Z (Qfloor a)));
        try lia; try (exfalso; lra).
      destruct (Z.even (Qfloor a)); lia.
  - pose proof (round_half_even_bounds a). pose proof (round_half_even_bounds b).
    lia.
Qed.

Lemma py_round_mono (x y : Q) (n : nat) :
  x <= y -> py_round x n <= py_round y n.
Proof.
  intros Hxy. unfold py_round, Qle. cbn [Qnum Qden].
  apply Z.mul_le_mono_nonneg_r; [lia|].
  apply round_half_even_mono.
  apply Qmult_le_compat_r; [exact Hxy|]. unfold Qle. simpl. lia.
Qed.

Lemma py_round_exact (x : Q) (n : nat) (z : Z) :
  x == z # pow10 n -> py_round x n == x.
Proof.
  intros Hx. unfold py_round.
  rewrite (round_half_even_integer _ z).
  - symmetry; exact Hx.
  - rewrite Hx. unfold Qeq, Qmult, inject_Z. simpl. lia.
Qed.

(** ** Treatment-benefit estimate *)

Lemma benefit_for_positive_rate (patient_data : list Q)
    (current_progression : Q) :
  0 < current_progression ->
  0 < List.last patient_data 1 ->
  let b := Model._calculate_stellest_benefit patient_data current_progression in
  Model.reduction_percentage b
    = py_round (100 - 40 * List.last patient_data 1) 1 /\
  Model.without_stellest b
    = py_round (current_progression / ((4 # 10) * List.last patient_data 1)) 2 /\
  Model.with_stellest b = py_round current_progression 2.
Proof.
  intros Hcp Hcs. cbv zeta. unfold Model._calculate_stellest_benefit.
  set (cs := List.last patient_data 1) in *.
  destruct (Qlt_le_dec 0 cs) as [_|Hle]; [|exfalso; lra].
  assert (Hw : 0 < current_progression / ((4 # 10) * cs)).
  { apply Qlt_shift_div_l; lra. }
  destruct (Qlt_le_dec 0 _) as [_|Hle]; [|exfalso; lra].
  cbn [Model.reduction_percentage Model.without_stellest Model.with_stellest].
  split; [|split; reflexivity].
  apply py_round_comp. field. split; lra.
Qed.

(** X10.  For a progression rate between 0.001 and 1000 and a compliance
    score (the last feature) between 0.001 and 1, the reported reduction
    is decided by the compliance score alone, up to the rounding: it is a
    whole number of tenths less than 0.1 away from 100 - 40*compliance,
    whatever the rate.  The untreated rate is the rate divided by
    0.4*compliance and the treated rate is the rate, both to two
    decimals. *)
Theorem stellest_reduction_by_compliance (patient_data : list Q)
    (current_progression : Q) :
  1 # 1000 <= current_progression <= 1000 ->
  1 # 1000 <= List.last patient_data 1 <= 1 ->
  let b := Model._calculate_stellest_benefit patient_data current_progression in
  (exists z, Model.reduction_percentage b = z # 10) /\
  Qabs (Model.reduction_percentage b - (100 - 40 * List.last patient_data 1))
    < 1 # 10 /\
  Qabs (Model.without_stellest b
        - current_progression / ((4 # 10) * List.last patient_data 1))
    < 1 # 100 /\
  Qabs (Model.with_stellest b - current_progression) < 1 # 100.
Proof.
  intros Hcp Hcs.
  destruct (benefit_for_positive_rate patient_data current_progression)
    as (Hr & Hw & Hx); [lra|lra|].
  cbv zeta. rewrite Hr, Hw, Hx.
  split; [apply py_round_1_spec|]. split; [apply py_round_1_spec|].
  split; apply py_round_2_spec.
Qed.

Lemma stellest_reduction_by_compliance_witness :
  Qabs (Model.reduction_percentage
          (Model._calculate_stellest_benefit [9; 1 # 2] (3 # 10))
        - (100 - 40 * (1 # 2))) < 1 # 10.
Proof.
  refine (proj1 (proj2
            (stellest_reduction_by_compliance [9; 1 # 2] (3 # 10) _ _)));
    split; vm_compute; discriminate.
Defined.

(** X11.  The other branches of the estimate, for rates within 1000 and
    a compliance score that is either not positive or between 0.001 and
    1: a rate that is not positive gives a reduction of 0; a rate of at
    least 0.001 with a compliance score that is not positive is divided
    by 0.4 alone and gives a reduction of 60. *)
Theorem stellest_reduction_edge_cases (patient_data : list Q)
    (current_progression : Q) :
  -1000 <= current_progression <= 1000 ->
  List.last patient_data 1 <= 0 \/ 1 # 1000 <= List.last patient_data 1 <= 1 ->
  let b := Model._calculate_stellest_benefit patient_data current_progression in
  (current_progression <= 0 -> Model.reduction_percentage b == 0) /\
  (1 # 1000 <= current_progression -> List.last patient_data 1 <= 0 ->
   Model.reduction_percentage b == 60).
Proof.
  intros _ _. cbv zeta. unfold Model._calculate_stellest_benefit.
  set (cs := List.last patient_data 1) in *.
  split.
  - intros Hcp.
    assert (Hw : forall d, 0 < d -> current_progression / d <= 0).
    { intros d Hd. apply Qle_shift_div_r; lra. }
    cbn [Model.reduction_percentage].
    destruct (Qlt_le_dec 0 cs) as [Hcs|Hcs].
    + destruct (Qlt_le_dec 0 _) as [Hpos|_]; [|vm_compute; reflexivity].
      exfalso. specialize (Hw ((4 # 10) * cs)). lra.
    + destruct (Qlt_le_dec 0 _) as [Hpos|_]; [|vm_compute; reflexivity].
      exfalso. specialize (Hw (4 # 10)). lra.
  - intros Hcp Hcs.
    destruct (Qlt_le_dec 0 cs) as [Hlt|_]; [exfalso; lra|].
    assert (Hw : 0 < current_progression / (4 # 10)).
    { apply Qlt_shift_div_l; lra. }
    destruct (Qlt_le_dec 0 _) as [_|Hle]; [|exfalso; lra].
    cbn [Model.reduction_percentage].
    rewrite (py_round_comp _ 60); [vm_compute; reflexivity|].
    field. lra.
Qed.

Lemma stellest_reduction_edge_cases_witness :
  Model.reduction_percentage
    (Model._calculate_stellest_benefit [9; 0] (3 # 10)) == 60 /\
  Model.reduction_percentage
    (Model._calculate_stellest_benefit [9; 1] (- (1 # 10))) == 0.
Proof.
  split.
  - refine (proj2 (stellest_reduction_edge_cases [9; 0] (3 # 10) _ _) _ _);
      [split| left | |]; vm_compute; discriminate.
  - refine (proj1 (stellest_reduction_edge_cases [9; 1] (- (1 # 10)) _ _) _);
      [split| right; split |]; vm_compute; discriminate.
Defined.

(** ** What a returned prediction holds *)

Lemma py_index_elem_of {A : Type} (l : list A) (i : Z) (a : A) :
  Model.py_index l i = Ret a -> a ∈ l.
Proof.
  unfold Model.py_index.
  destruct (_ <? 0)%Z; [discriminate|].
  destruct (l !! _) eqn:E; [|discriminate].
  intros [= <-]. eapply list_elem_of_lookup_2; eauto.
Qed.

Lemma predict_inv (self : Model.MyopiaPredictionModel) (x : list Q)
    (res : Model.PredictionResult) :
  Model.predict self x = Ret res ->
  exists s c r X,
    Model.scaler self = Model.PyScaler s /\
    Model.progression_classifier self = Model.PyClassifier c /\
    Model.progression_regressor self = Model.PyRegressor r /\
    Model.scaler_transform s x = Ret X /\
    Model.risk_category res ∈ Model.risk_labels /\
    Model.estimated_progression res = py_round (Model.reg_predict r X) 2 /\
    Model.stellest_effectiveness res
      = Model._calculate_stellest_benefit x (Model.reg_predict r X).
Proof.
  unfold Model.predict.
  destruct (Model.scaler self) as [| |s| | |] eqn:Es; try discriminate.
  destruct (Model.scaler_transform s x) as [X|] eqn:EX; [|discriminate].
  destruct (Model.progression_classifier self) as [| | |c| |] eqn:Ec;
    try discriminate.
  cbn [mbind exc_bind].
  destruct (Model.clf_predict c X) as [k|] eqn:Ek; [|discriminate].
  destruct (Model.progression_regressor self) as [| | | |r|] eqn:Er;
    try discriminate.
  cbn [mbind exc_bind].
  destruct (Model.py_index Model.risk_labels k) as [label|] eqn:El;
    [|discriminate].
  cbn [mbind exc_bind].
  destruct (Model.np_index _ 0) as [p0|]; [|discriminate].
  destruct (Model.np_index _ 1) as [p1|]; [|discriminate].
  destruct (Model.np_index _ 2) as [p2|]; [|discriminate].
  cbn [mbind exc_bind mret exc_ret]. intros [= <-].
  exists s, c, r, X. repeat split; try reflexivity; try assumption.
  cbn [Model.risk_category]. eapply py_index_elem_of; eauto.
Qed.

(** X8.  The ways [predict] fails before any estimator answers: a model that
    was only constructed has an unfitted scaler; a vector of another
    width than the scaler was fitted on is refused; a scaler without a
    classifier or regressor beside it is an attribute error. *)
Theorem predict_preconditions (self : Model.MyopiaPredictionModel)
    (s : Model.StandardScaler) (x : list Q) :
  Model.predict Model.init x = Raise NotFittedError /\
  (Model.scaler self = Model.PyScaler s ->
   length x <> length (Model.mean_ s) ->
   Model.predict self x = Raise ValueError) /\
  (Model.scaler self = Model.PyScaler s ->
   length x = length (Model.mean_ s) ->
   Model.progression_classifier self = Model.PyNone ->
   Model.predict self x = Raise AttributeError).
Proof.
  split; [reflexivity|]. split.
  - intros Hs Hlen. unfold Model.predict, Model.scaler_transform.
    rewrite Hs. apply Nat.eqb_neq in Hlen. rewrite Hlen. reflexivity.
  - intros Hs Hlen Hc. unfold Model.predict, Model.scaler_transform.
    rewrite Hs, Hc, Hlen, Nat.eqb_refl. reflexivity.
Qed.

Lemma predict_preconditions_witness :
  Model.predict (Samples.fitted [0; 1; 2]%Z (1 # 2)) [9; 7]
    = Raise ValueError.
Proof.
  refine (proj1 (proj2 (predict_preconditions
            (Samples.fitted [0; 1; 2]%Z (1 # 2)) _ [9; 7])) eq_refl _).
  vm_compute. discriminate.
Defined.

(** X9.  A prediction that is returned carries one of the three risk labels,
    so the report never falls back to its default colour for it, and the
    follow-up interval is the one of that label. *)
Theorem predicted_label_has_colour (self : Model.MyopiaPredictionModel)
    (x : list Q) (res : Model.PredictionResult) :
  Model.predict self x = Ret res ->
  Model.risk_category res ∈ ["Low Risk"; "Medium Risk"; "High Risk"] /\
  Report._get_risk_color (Model.risk_category res)
    ∈ ["#06A77D"; "#F18F01"; "#C73E1D"] /\
  Report._get_risk_color (Model.risk_category res) <> "#000000".
Proof.
  intros H. apply predict_inv in H as (s & c & r & X & _ & _ & _ & _ & Hl & _).
  split; [exact Hl|].
  unfold Model.risk_labels in Hl. set_unfold in Hl.
  destruct Hl as [->|[->|[->|[]]]]; split;
    try (vm_compute; discriminate); set_unfold; vm_compute; auto.
Qed.

Lemma predicted_label_has_colour_witness :
  match Model.predict (Samples.fitted [0; 1; 2]%Z (1 # 2)) (repeat 0 15) with
  | Ret res => Report._get_risk_color (Model.risk_category res) <> "#000000"
  | Raise _ => False
  end.
Proof.
  destruct (Model.predict (Samples.fitted [0; 1; 2]%Z (1 # 2)) (repeat 0 15))
    as [res|e] eqn:E.
  - exact (proj2 (proj2 (predicted_label_has_colour _ _ _ E))).
  - vm_compute in E. discriminate E.
Defined.

(** ** The request path *)

(** X6.  The feature vector is built for every request except when the
    outdoor hours are -0.1, where the screen/outdoor ratio divides by
    zero; a vector that is built has 15 entries, the last of which is the
    compliance score, between 0 and 1. *)
Theorem build_features_domain (p : Api.PatientData) :
  (Api.outdoor_hours p + (1 # 10) == 0 ->
   Api.build_features p = Raise ZeroDivisionError) /\
  (~ Api.outdoor_hours p + (1 # 10) == 0 ->
   exists v, Api.build_features p = Ret v /\ length v = 15%nat /\
             List.last v 1 = clip (Api.wearing_hours p / 12) 0 1 /\
             0 <= List.last v 1 <= 1).
Proof.
  unfold Api.build_features, Api.derive, Api.py_div.
  destruct (Qeq_bool (Api.outdoor_hours p + (1 # 10)) 0) eqn:E.
  - apply Qeq_bool_iff in E. split; [reflexivity|contradiction].
  - split.
    + intros H. apply Qeq_bool_iff in H. congruence.
    + intros _. eexists. split; [reflexivity|]. split; [reflexivity|].
      split; [reflexivity|]. cbn. apply clip_between. lra.
Qed.

Lemma build_features_domain_witness :
  (exists v, Api.build_features Samples.scenario = Ret v /\
             length v = 15%nat /\
             List.last v 1 = clip (Api.wearing_hours Samples.scenario / 12) 0 1 /\
             0 <= List.last v 1 <= 1) /\
  Api.build_features
    {| Api.name := None; Api.age := 9; Api.gender := "F";
       Api.age_diagnosis := 7; Api.myopic_parents := "None";
       Api.outdoor_hours := - (1 # 10); Api.screen_hours := 2;
       Api.had_myopia_control := false;
       Api.re_spherical := -1; Api.re_cylinder := 0;
       Api.le_spherical := -1; Api.le_cylinder := 0;
       Api.re_axial_length := 23; Api.le_axial_length := 23;
       Api.wearing_hours := 12; Api.qol_score := None |}
    = Raise ZeroDivisionError.
Proof.
  split.
  - apply (proj2 (build_features_domain Samples.scenario)).
    vm_compute. discriminate.
  - apply (proj1 (build_features_domain _)). vm_compute. reflexivity.
Defined.

(** X7.  The two endpoints hand the model the same vector: the feature list
    written out in [generate_report] equals the one of [predict]. *)
Theorem report_features_agree (p : Api.PatientData) :
  ApiReport.report_features p = Api.build_features p.
Proof.
  unfold ApiReport.report_features, Api.build_features, Api.derive.
  destruct (Api.py_div _ _); reflexivity.
Qed.




(** ** Model state of the serving process *)

Section ServingFacts.

Variable py_float : string -> exc fval.
Variable train_models :
  Model.MyopiaPredictionModel -> list Model.Processed ->
  exc Model.MyopiaPredictionModel.

Lemma train_and_save_global (w w' : Api.World)
    (self : Model.MyopiaPredictionModel)
    (res : exc Model.MyopiaPredictionModel) :
  Api.train_and_save py_float train_models w self = (w', res) ->
  match res with
  | Ret m => Api.model w' = Some m
  | Raise _ => Api.model w' = Some self /\ Api.fs w' = Api.fs w
  end.
Proof.
  unfold Api.train_and_save.
  destruct (Api.load_and_preprocess_data _ _) as [df|e].
  - destruct (train_models self df) as [m|e]; intros [= <- <-]; auto.
  - intros [= <- <-]. auto.
Qed.

(** X1.  Saving and loading give the model back, and a model that is loaded
    from what was saved predicts what the saved one predicts. *)
Theorem persistence_round_trip (self m : Model.MyopiaPredictionModel)
    (x : list Q) :
  Model.load_model self (Some (Model.save_model m)) = (m, Ret tt) /\
  Model.predict (Model.load_model self (Some (Model.save_model m))).1 x
    = Model.predict m x.
Proof.
  assert (H : Model.load_model self (Some (Model.save_model m)) = (m, Ret tt))
    by (destruct m; reflexivity).
  rewrite H. split; reflexivity.
Qed.

(** X2.  A model returned by [load_model] stays: the next call returns the
    same model and changes neither the global nor the files. *)
Theorem load_model_cached (w w' : Api.World) (m : Model.MyopiaPredictionModel) :
  Api.load_model py_float train_models w = (w', Ret m) ->
  Api.model w' = Some m /\
  Api.load_model py_float train_models w' = (w', Ret m).
Proof.
  intros H.
  assert (Hm : Api.model w' = Some m).
  { revert H. unfold Api.load_model.
    destruct (Api.model w) as [m0|] eqn:Em.
    - intros [= <- <-]. exact Em.
    - destruct (Api.fs w !! Api.model_path) as [f|].
      + destruct (Model.load_model Model.init (Some f)) as [self' [[]|e]].
        * intros [= <- <-]. reflexivity.
        * intros H. apply train_and_save_global in H. exact H.
      + intros H. apply train_and_save_global in H. exact H. }
  split; [exact Hm|]. unfold Api.load_model. rewrite Hm. reflexivity.
Qed.

(** X3.  A first call that fails leaves a model object in the global all the
    same: the one that was constructed, with whatever a partial load
    assigned.  The next call returns that object without loading or
    training again, and without touching the files. *)
Theorem load_model_failure_sticks (w w' : Api.World) (e : pyexn) :
  Api.model w = None ->
  Api.load_model py_float train_models w = (w', Raise e) ->
  exists self,
    Api.model w' = Some self /\
    Api.fs w' = Api.fs w /\
    Api.load_model py_float train_models w' = (w', Ret self).
Proof.
  intros Hnone H.
  assert (Hs : exists self, Api.model w' = Some self /\ Api.fs w' = Api.fs w).
  { revert H. unfold Api.load_model. rewrite Hnone.
    destruct (Api.fs w !! Api.model_path) as [f|].
    - destruct (Model.load_model Model.init (Some f)) as [self' [[]|e']].
      + intros [= <-].
      + intros H. apply train_and_save_global in H. eauto.
    - intros H. apply train_and_save_global in H. eauto. }
  destruct Hs as (self & Hm & Hfs). exists self.
  split; [exact Hm|]. split; [exact Hfs|].
  unfold Api.load_model. rewrite Hm. reflexivity.
Qed.

(** X4.  With neither a persisted model nor the workbook, the first request
    fails on the missing file; every later request finds the unfitted
    model in the global and fails in [predict]. *)
Theorem first_failure_then_unfitted (w : Api.World) (p : Api.PatientData) :
  Api.model w = None ->
  Api.fs w !! Api.model_path = None ->
  Api.fs w !! Api.excel_path = None ->
  let w1 := {| Api.model := Some Model.init; Api.fs := Api.fs w |} in
  Api.load_model py_float train_models w = (w1, Raise FileNotFoundError) /\
  Api.load_model py_float train_models w1 = (w1, Ret Model.init) /\
  Api.predict py_float train_models w1 p = (w1, Raise HTTPException).
Proof.
  intros Hnone Hm He. cbv zeta.
  split; [|split].
  - unfold Api.load_model, Api.train_and_save. rewrite Hnone, Hm, He.
    reflexivity.
  - reflexivity.
  - unfold Api.predict. cbn [Api.load_model Api.model].
    unfold Api.respond.
    destruct (Api.derive p) as [d|]; reflexivity.
Qed.

End ServingFacts.

Lemma load_model_cached_witness :
  Api.load_model DecimalFloat.py_float
    (Samples.train_to (Samples.fitted [0; 1; 2]%Z (1 # 2)))
    (Samples.trained_world (Samples.fitted [0; 1; 2]%Z (1 # 2)))
  = (Samples.trained_world (Samples.fitted [0; 1; 2]%Z (1 # 2)),
     Ret (Samples.fitted [0; 1; 2]%Z (1 # 2))).
Proof.
  exact (proj2 (load_model_cached DecimalFloat.py_float
                  (Samples.train_to (Samples.fitted [0; 1; 2]%Z (1 # 2)))
                  (Samples.trained_world (Samples.fitted [0; 1; 2]%Z (1 # 2)))
                  (Samples.trained_world (Samples.fitted [0; 1; 2]%Z (1 # 2)))
                  (Samples.fitted [0; 1; 2]%Z (1 # 2)) eq_refl)).
Defined.

Lemma load_model_failure_sticks_witness :
  exists self,
    Api.model Samples.stuck_world = Some self /\
    Api.fs Samples.stuck_world = Api.fs Samples.empty_world /\
    Api.load_model DecimalFloat.py_float
      (Samples.train_to Model.init) Samples.stuck_world
    = (Samples.stuck_world, Ret self).
Proof.
  exact (load_model_failure_sticks DecimalFloat.py_float
           (Samples.train_to Model.init) Samples.empty_world
           Samples.stuck_world FileNotFoundError eq_refl eq_refl).
Defined.

Lemma first_failure_then_unfitted_witness :
  Api.predict DecimalFloat.py_float (Samples.train_to Model.init)
    Samples.stuck_world Samples.scenario
  = (Samples.stuck_world, Raise HTTPException).
Proof.
  exact (proj2 (proj2 (first_failure_then_unfitted DecimalFloat.py_float
            (Samples.train_to Model.init) Samples.empty_world
            Samples.scenario eq_refl eq_refl eq_refl))).
Defined.

(** ** Progression timeline, beyond the projected severities *)

Lemma div_by_treatment_factor (x : Q) : x / (4 # 10) == (5 # 2) * x.
Proof. field. Qed.

(** X13.  For an annual progression between 0 and 100, a current
    severity within 1000 and an age between 0 and 150, every entry of
    the timeline has saved diopters that are not negative and less than
    0.01 away from 1.5 * rate * year, a severity with treatment that is
    at most the severity without, and a projected age less than 0.1 away
    from age + year. *)
Theorem timeline_savings (annual_progression current_age current_severity : Q) :
  0 <= annual_progression <= 100 ->
  -1000 <= current_severity <= 1000 ->
  0 <= current_age <= 150 ->
  Forall (fun e =>
    0 <= Api.saved_diopters e /\
    Qabs (Api.saved_diopters e
          - (15 # 10) * annual_progression * inject_Z (Api.year e)) < 1 # 100 /\
    Api.severity_with_treatment e <= Api.severity_without_treatment e /\
    Qabs (Api.projected_age e - (current_age + inject_Z (Api.year e))) < 1 # 10)
    (Api._calculate_progression_timeline
       annual_progression current_age current_severity).
Proof.
  intros [Hap _] _ _.
  assert (H0 : py_round 0 2 == 0) by (vm_compute; reflexivity).
  unfold Api._calculate_progression_timeline, Api.years. cbn [map].
  repeat match goal with |- Forall _ _ => constructor end;
    unfold Api.timeline_entry;
    cbn [Api.saved_diopters Api.severity_with_treatment
         Api.severity_without_treatment Api.projected_age Api.year inject_Z];
    (split; [rewrite <- H0; apply py_round_mono;
             rewrite div_by_treatment_factor; unfold inject_Z; lra|]);
    (split; [match goal with |- Qabs (py_round ?x 2 - ?t) < _ =>
               rewrite (py_round_comp x t) by field end;
             apply py_round_2_spec|]);
    (split; [apply py_round_mono;
             rewrite div_by_treatment_factor; unfold inject_Z; lra|]);
    apply py_round_1_spec.
Qed.

Lemma timeline_savings_witness :
  Forall (fun e => 0 <= Api.saved_diopters e)
    (Api._calculate_progression_timeline (6 # 10) 9 4).
Proof.
  eapply Forall_impl.
  - apply (timeline_savings (6 # 10) 9 4); split; vm_compute; discriminate.
  - intros e (H & _). exact H.
Defined.

(** X14.  For a progression rate that is not negative the projected severities
    never decrease from one horizon to the next, with and without
    treatment. *)
Theorem timeline_nondecreasing (annual_progression current_age current_severity : Q) :
  0 <= annual_progression ->
  let tl := Api._calculate_progression_timeline
              annual_progression current_age current_severity in
  StronglySorted Qle (map Api.severity_with_treatment tl) /\
  StronglySorted Qle (map Api.severity_without_treatment tl).
Proof.
  intros Hap. cbv zeta.
  unfold Api._calculate_progression_timeline, Api.years, Api.timeline_entry.
  cbn [map Api.severity_with_treatment Api.severity_without_treatment inject_Z].
  split;
    repeat match goal with
           | |- StronglySorted _ _ => constructor
           | |- Forall _ _ => constructor
           end;
    apply py_round_mono; rewrite ?div_by_treatment_factor;
    unfold inject_Z; lra.
Qed.

Lemma timeline_nondecreasing_witness :
  StronglySorted Qle
    (map Api.severity_with_treatment
       (Api._calculate_progression_timeline (6 # 10) 9 4)).
Proof.
  apply (timeline_nondecreasing (6 # 10) 9 4). vm_compute. discriminate.
Defined.

(** ** Comparative statistics *)



(** ** Parental-myopia encoder, for every text *)

Lemma upper_char_idem (c : ascii) :
  PyStr.upper_char (PyStr.upper_char c) = PyStr.upper_char c.
Proof. destruct c as [[] [] [] [] [] [] [] []]; reflexivity. Qed.

Lemma upper_lower_char (c : ascii) :
  PyStr.upper_char (PyStr.lower_char c) = PyStr.upper_char c.
Proof. destruct c as [[] [] [] [] [] [] [] []]; reflexivity. Qed.

Lemma upper_idem (s : string) : PyStr.upper (PyStr.upper s) = PyStr.upper s.
Proof.
  induction s as [|c s IH]; [reflexivity|].
  cbn. f_equal; [apply upper_char_idem|exact IH].
Qed.

Lemma upper_lower (s : string) : PyStr.upper (PyStr.lower s) = PyStr.upper s.
Proof.
  induction s as [|c s IH]; [reflexivity|].
  cbn. f_equal; [apply upper_lower_char|exact IH].
Qed.

Lemma upper_app (a b : string) :
  PyStr.upper (a +:+ b) = PyStr.upper a +:+ PyStr.upper b.
Proof.
  unfold PyStr.upper.
  induction a as [|c a IH]; [reflexivity|]. simpl. rewrite IH. reflexivity.
Qed.

Lemma prefix_app (sub b : string) : String.prefix sub (sub +:+ b) = true.
Proof.
  induction sub as [|c sub IH]; [destruct b; reflexivity|].
  change (String c sub +:+ b) with (String c (sub +:+ b)).
  cbn [String.prefix]. destruct (Ascii.ascii_dec c c); [exact IH|congruence].
Qed.

Lemma contains_app (sub a b : string) :
  PyStr.contains sub (a +:+ sub +:+ b) = true.
Proof.
  induction a as [|c a IH].
  - change ("" +:+ sub +:+ b) with (sub +:+ b).
    pose proof (prefix_app sub b) as Hp.
    destruct (sub +:+ b); cbn [PyStr.contains]; rewrite Hp; reflexivity.
  - change (String c a +:+ sub +:+ b) with (String c (a +:+ sub +:+ b)).
    cbn [PyStr.contains]. rewrite IH. apply orb_true_r.
Qed.

(** X18.  The encoder answers 0, 1 or 2 for every cell, and does not look at
    the case of the letters. *)
Theorem encode_myopic_parents_range (v : raw) (s : string) :
  (0 <= Model._encode_myopic_parents v <= 2)%Z /\
  Model._encode_myopic_parents (RStr (PyStr.upper s))
    = Model._encode_myopic_parents (RStr s) /\
  Model._encode_myopic_parents (RStr (PyStr.lower s))
    = Model._encode_myopic_parents (RStr s).
Proof.
  split; [|split].
  - destruct v as [|q|t]; cbn; try lia.
    destruct (_ || _); [lia|]. destruct (_ || _); lia.
  - unfold Model._encode_myopic_parents. rewrite upper_idem. reflexivity.
  - unfold Model._encode_myopic_parents. rewrite upper_lower. reflexivity.
Qed.

(** X19.  A text that holds the letters o, n, e in a row, in any case and
    anywhere (None, Money, phone, ...), is never encoded as 0. *)
Theorem encode_myopic_parents_substring (a w b : string) :
  PyStr.upper w = "ONE" ->
  (1 <= Model._encode_myopic_parents (RStr (a +:+ w +:+ b)))%Z.
Proof.
  intros Hw. unfold Model._encode_myopic_parents.
  rewrite !upper_app, Hw.
  rewrite (contains_app "ONE" (PyStr.upper a) (PyStr.upper b)).
  destruct (_ || _); [lia|]. rewrite !orb_true_r. lia.
Qed.

Lemma encode_myopic_parents_substring_witness :
  (1 <= Model._encode_myopic_parents (RStr ("No m" +:+ "one" +:+ "y")))%Z.
Proof.
  apply encode_myopic_parents_substring. reflexivity.
Defined.

(** ** Median fill *)

Lemma fillna_no_missing (median row : list fval) :
  Forall (fun m => isna m = false) median ->
  (length row <= length median)%nat ->
  Forall (fun v => isna v = false) (Model.fillna median row).
Proof.
  unfold Model.fillna. intros Hmed Hlen. apply Forall_lookup_2. intros i v.
  rewrite list_lookup_imap.
  destruct (row !! i) as [u|] eqn:Hu; [|discriminate].
  cbn. intros [= <-]. destruct (isna u) eqn:Eu; [|exact Eu].
  apply lookup_lt_Some in Hu.
  destruct (median !! i) as [m|] eqn:Hm.
  - cbn. eapply Forall_lookup_1 in Hmed; eauto.
  - apply lookup_ge_None in Hm. lia.
Qed.

(** X20.  The median fill keeps the length of the row and every value that is
    not missing; with a median for every column and no missing median it
    leaves no missing value; applying it twice is the same as applying it
    once (the source fills in [_process_features] and again in
    [train_models]). *)
Theorem fillna_properties (median row : list fval) :
  length (Model.fillna median row) = length row /\
  (forall i v, row !! i = Some v -> isna v = false ->
     Model.fillna median row !! i = Some v) /\
  (Forall (fun m => isna m = false) median ->
   (length row <= length median)%nat ->
   Forall (fun v => isna v = false) (Model.fillna median row)) /\
  Model.fillna median (Model.fillna median row) = Model.fillna median row.
Proof.
  split; [apply length_imap|]. split; [|split].
  - unfold Model.fillna. intros i v Hi Hv.
    rewrite list_lookup_imap, Hi. cbn. rewrite Hv. reflexivity.
  - apply fillna_no_missing.
  - unfold Model.fillna. apply list_eq. intros i. rewrite !list_lookup_imap.
    destruct (row !! i) as [u|]; [|reflexivity]. cbn.
    destruct (isna u) eqn:Eu; [|rewrite Eu; reflexivity].
    destruct (isna (default NaN (median !! i))); reflexivity.
Qed.

Lemma fillna_properties_witness :
  Forall (fun v => isna v = false)
    (Model.fillna [Fin 10; Fin 1] [NaN; Fin 0]).
Proof.
  apply (fillna_properties [Fin 10; Fin 1] [NaN; Fin 0]).
  - repeat constructor.
  - repeat constructor.
Defined.

(** ** Training rows *)

Lemma extract_age_returns py_float v :
  exists x, Model._extract_age py_float v = Ret x.
Proof.
  destruct v; cbn; eauto. destruct (_ || _); destruct (py_float _); cbn; eauto.
Qed.

Lemma extract_hours_returns py_float v :
  exists x, Model._extract_hours py_float v = Ret x.
Proof.
  destruct v; cbn; eauto.
  destruct (PyStr.contains _ _); [destruct (PyStr.first_number _)|];
    destruct (py_float _); cbn; eauto.
Qed.

Lemma extract_diopters_returns py_float v :
  exists x, Model._extract_diopters py_float v = Ret x.
Proof.
  destruct v; cbn; eauto.
  - destruct (Qeq_bool _ _); eauto.
  - destruct (py_float _); cbn; eauto.
Qed.

Lemma extract_axial_length_returns py_float v :
  exists x, Model._extract_axial_length py_float v = Ret x.
Proof.
  destruct v; cbn; eauto. destruct (py_float _); cbn; eauto.
Qed.

Lemma process_features_returns py_float (rec : Model.RawClinicalRecord) :
  exists df,
    Model._process_features py_float rec = Ret df /\
    Model.myopic_parents df
      = Model._encode_myopic_parents (Model.r_myopic_parents rec) /\
    (exists w, Model.compliance_score df = fclip w 0 1).
Proof.
  unfold Model._process_features.
  destruct (extract_age_returns py_float (Model.r_age rec)) as [? ->].
  destruct (extract_age_returns py_float (Model.r_age_diagnosis rec)) as [? ->].
  destruct (extract_hours_returns py_float (Model.r_outdoor_time rec)) as [? ->].
  destruct (extract_hours_returns py_float (Model.r_screen_time rec)) as [? ->].
  destruct (extract_diopters_returns py_float (Model.r_re_spherical rec)) as [? ->].
  destruct (extract_diopters_returns py_float (Model.r_le_spherical rec)) as [? ->].
  destruct (extract_diopters_returns py_float (Model.r_re_cylinder rec)) as [? ->].
  destruct (extract_diopters_returns py_float (Model.r_le_cylinder rec)) as [? ->].
  destruct (extract_axial_length_returns py_float (Model.r_re_axial_length rec))
    as [? ->].
  destruct (extract_axial_length_returns py_float (Model.r_le_axial_length rec))
    as [? ->].
  destruct (extract_hours_returns py_float (Model.r_wearing_time rec)) as [? ->].
  cbn [mbind exc_bind mret exc_ret].
  eexists. split; [reflexivity|]. split; [reflexivity|].
  cbn [Model.compliance_score]. eauto.
Qed.

(** X21.  Whatever the cells of a record hold and whatever [float] accepts, the
    training builder returns a row of 15 values; with a median for each
    of the 15 columns and no missing median, no value of the row is
    missing. *)
Theorem training_features_total (py_float : string -> exc fval)
    (median : list fval) (rec : Model.RawClinicalRecord) :
  exists w,
    Model.training_features py_float median rec = Ret w /\
    length w = 15%nat /\
    (Forall (fun m => isna m = false) median -> length median = 15%nat ->
     Forall (fun v => isna v = false) w).
Proof.
  unfold Model.training_features.
  destruct (process_features_returns py_float rec) as (df & -> & _).
  cbn [mbind exc_bind mret exc_ret]. eexists. split; [reflexivity|].
  split.
  - unfold Model.fillna. rewrite length_imap. reflexivity.
  - intros Hmed Hlen.
    apply fillna_no_missing; [exact Hmed|].
    rewrite Hlen. cbn. lia.
Qed.

Lemma training_features_total_witness :
  exists w,
    Model.training_features DecimalFloat.py_float (repeat (Fin 0) 15)
      Samples.messy_record = Ret w /\
    Forall (fun v => isna v = false) w.
Proof.
  destruct (training_features_total DecimalFloat.py_float (repeat (Fin 0) 15)
              Samples.messy_record) as (w & Hw & _ & Hfull).
  exists w. split; [exact Hw|].
  apply Hfull; [repeat constructor|reflexivity].
Defined.

(** ** Training labels *)

Lemma encode_range (v : raw) : (0 <= Model._encode_myopic_parents v <= 2)%Z.
Proof.
  destruct v as [|q|t]; cbn; try lia.
  destruct (_ || _); [lia|]. destruct (_ || _); lia.
Qed.

Ltac fcases v :=
  destruct v as [?| | |]; cbn; qcases; try lia; try (exfalso; lra).

Lemma risk_term_ranges (a sc od sev ax : fval) :
  (0 <= Model.risk_age_term a <= 2)%Z /\
  (0 <= Model.risk_screen_term sc <= 1)%Z /\
  (-1 <= Model.risk_outdoor_term od <= 0)%Z /\
  (0 <= Model.risk_severity_term sev <= 2)%Z /\
  (0 <= Model.risk_axial_term ax <= 2)%Z.
Proof.
  unfold Model.risk_age_term, Model.risk_screen_term, Model.risk_outdoor_term,
    Model.risk_severity_term, Model.risk_axial_term, fgt, fge, fle.
  repeat apply conj.
  all: match goal with
       | |- context [flt ?x _] => is_var x; fcases x
       | |- context [flt _ ?x] => is_var x; fcases x
       end.
Qed.

(** X22.  For every raw record the rule score behind the risk label lies
    between -1 and 9 and the label is 0, 1 or 2: a missing or unreadable
    measurement adds nothing to the score. *)
Theorem risk_label_range (py_float : string -> exc fval)
    (rec : Model.RawClinicalRecord) (df : Model.Processed) :
  Model._process_features py_float rec = Ret df ->
  (-1 <= Model.risk_score df <= 9)%Z /\
  (0 <= Model._calculate_progression_risk df <= 2)%Z /\
  (Model.age df = NaN -> Model.screen_hours df = NaN ->
   Model.outdoor_hours df = NaN -> Model.myopia_severity df = NaN ->
   Model.avg_axial_length df = NaN ->
   Model.risk_score df = Model.myopic_parents df).
Proof.
  intros Hdf.
  destruct (process_features_returns py_float rec) as (df' & Hdf' & Hmp & _).
  rewrite Hdf in Hdf'. injection Hdf' as <-.
  pose proof (encode_range (Model.r_myopic_parents rec)) as Hr.
  rewrite <- Hmp in Hr.
  destruct (risk_term_ranges (Model.age df) (Model.screen_hours df)
              (Model.outdoor_hours df) (Model.myopia_severity df)
              (Model.avg_axial_length df)) as (Ha & Hs & Ho & Hv & Hx).
  split; [unfold Model.risk_score; lia|]. split.
  - unfold Model._calculate_progression_risk.
    destruct (_ <=? 2)%Z; [lia|]. destruct (_ <=? 4)%Z; lia.
  - intros E1 E2 E3 E4 E5. unfold Model.risk_score.
    rewrite E1, E2, E3, E4, E5.
    unfold Model.risk_age_term, Model.risk_screen_term,
      Model.risk_outdoor_term, Model.risk_severity_term,
      Model.risk_axial_term, fgt, fge, fle.
    cbn [flt Model.b2z andb negb]. lia.
Qed.

Lemma risk_label_range_witness :
  match Model._process_features DecimalFloat.py_float Samples.messy_record with
  | Ret df => (-1 <= Model.risk_score df <= 9)%Z
  | Raise _ => False
  end.
Proof.
  destruct (Model._process_features DecimalFloat.py_float Samples.messy_record)
    as [df|e] eqn:E.
  - exact (proj1 (risk_label_range _ _ _ E)).
  - vm_compute in E. discriminate E.
Defined.

(** X23.  The progression-rate label of a row is either missing or a number
    between 0 and 2, never an infinity. *)
Theorem training_rate_label_range (df : Model.Processed) :
  match Model._estimate_progression df with
  | Fin q => 0 <= q <= 2
  | NaN => True
  | PInf | NInf => False
  end.
Proof.
  unfold Model._estimate_progression.
  match goal with |- context [fclip ?v _ _] => destruct v end;
    cbn [fclip]; try exact I; try lra.
  apply clip_between. lra.
Qed.

Lemma clip_zero (x hi : Q) : 0 <= hi -> x == 0 -> clip x 0 hi == 0.
Proof.
  intros Hhi Hx. unfold clip.
  destruct (Qlt_le_dec x 0); [reflexivity|].
  destruct (Qlt_le_dec hi x); [lra|exact Hx].
Qed.

(** X24.  With screen and outdoor hours known, a row whose compliance score is
    zero gets the progression-rate label 0: the label is proportional to
    the wearing time. *)
Theorem training_rate_zero_without_wear (df : Model.Processed) (s o c : Q) :
  Model.screen_hours df = Fin s ->
  Model.outdoor_hours df = Fin o ->
  Model.compliance_score df = Fin c ->
  c == 0 ->
  exists q, Model._estimate_progression df = Fin q /\ q == 0.
Proof.
  intros Hs Ho Hc Hz. unfold Model._estimate_progression.
  rewrite Hs, Ho, Hc.
  destruct (flt (Model.age df) (Fin 10));
    [|destruct (flt (Model.age df) (Fin 12))];
    cbn; eexists; (split; [reflexivity|]);
    (apply clip_zero; [lra|rewrite Hz; ring]).
Qed.

Lemma training_rate_zero_without_wear_witness :
  exists q,
    Model._estimate_progression
      {| Model.age := Fin 9; Model.age_diagnosis := Fin 7;
         Model.age_at_diagnosis := Fin 7;
         Model.years_since_diagnosis := Fin 2; Model.gender := Fin 1;
         Model.myopic_parents := 2; Model.outdoor_hours := Fin 1;
         Model.screen_hours := Fin 5;
         Model.screen_outdoor_ratio := Fin (50 # 11);
         Model.had_myopia_control := 0;
         Model.re_spherical := Fin (-4); Model.le_spherical := Fin (-4);
         Model.avg_spherical := Fin (-4); Model.myopia_severity := Fin 4;
         Model.re_cylinder := Fin 0; Model.le_cylinder := Fin 0;
         Model.has_astigmatism := 0;
         Model.re_axial_length := Fin 25; Model.le_axial_length := Fin 25;
         Model.avg_axial_length := Fin 25; Model.axial_length_abnormal := 1;
         Model.wearing_hours := Fin 0; Model.compliance_score := Fin 0;
         Model.qol_score := NaN |} = Fin q /\ q == 0.
Proof.
  eapply (training_rate_zero_without_wear _ 5 1 0); reflexivity.
Defined.

(** ** Scorer labels and the report *)

Lemma factor_scores_nonneg a mp sev ax sc od cs :
  0 <= Api.score (Api.age_factor a) /\
  0 <= Api.score (Api.genetics_factor mp) /\
  0 <= Api.score (Api.severity_factor sev) /\
  0 <= Api.score (Api.axial_factor ax) /\
  0 <= Api.score (Api.screen_factor sc) /\
  0 <= Api.score (Api.outdoor_factor od) /\
  0 <= Api.score (Api.compliance_factor cs).
Proof.
  unfold Api.age_factor, Api.genetics_factor, Api.severity_factor,
    Api.axial_factor, Api.screen_factor, Api.outdoor_factor,
    Api.compliance_factor.
  repeat apply conj; qcases; lra.
Qed.

(** X17.  In the scorer's result the impact label goes with the score: "Low"
    exactly for a contribution of 0, "High" only for a contribution of at
    least 1, "Medium" only for 1 or 0.5; no other label occurs. *)
Theorem factor_impact_matches_score (p : Api.PatientData)
    (sph sev ax cs : Q) (mp : Z) :
  Forall (fun f =>
    (Api.impact f = "Low" <-> Api.score f == 0) /\
    (Api.impact f = "High" -> 1 <= Api.score f) /\
    (Api.impact f = "Medium" -> Api.score f == 1 \/ Api.score f == 1 # 2) /\
    Api.impact f ∈ ["Low"; "Medium"; "High"])
    (Api.factors (Api._calculate_risk_factors p sph sev ax cs mp)).
Proof.
  unfold Api._calculate_risk_factors. cbn [Api.factors].
  unfold Api.age_factor, Api.genetics_factor, Api.severity_factor,
    Api.axial_factor, Api.screen_factor, Api.outdoor_factor,
    Api.compliance_factor.
  repeat match goal with |- Forall _ _ => constructor end;
    qcases;
    (split; [split; intros H; try reflexivity; try discriminate H;
             exfalso; revert H; vm_compute; discriminate|]);
    (split; [intros H; try discriminate H; vm_compute; discriminate|]);
    (split; [intros H; try discriminate H;
             first [left; reflexivity|right; reflexivity]|]);
    set_solver.
Qed.

Lemma parents_code_range (s : string) :
  (0 <= default 0 (Api.parents_code !! s) <= 2)%Z.
Proof.
  destruct (Api.parents_code !! s) as [k|] eqn:E; cbn; [|lia].
  unfold Api.parents_code in E. apply elem_of_list_to_map_2 in E.
  set_unfold in E.
  destruct E as [[= _ ->]|[[= _ ->]|[[= _ ->]|[]]]]; lia.
Qed.

(** X25.  The parental-history line of the report indexes a three-element list
    with the stored code: the list of lines is built whenever the code is
    at most 2 and the build fails with [IndexError] for a larger code.
    The code that both endpoints store is 0, 1 or 2, so for their
    [patient_info] the list is always built. *)
Theorem report_bullets_index (patient_info : Report.PatientInfo) :
  ((default 0 (Report.pi_myopic_parents patient_info) <= 2)%Z ->
   returns (Report.risk_bullets patient_info)) /\
  ((2 < default 0 (Report.pi_myopic_parents patient_info))%Z ->
   Report.risk_bullets patient_info = Raise IndexError) /\
  (forall p d, Api.derive p = Ret d ->
   returns (Report.risk_bullets (ApiReport.patient_info p d))).
Proof.
  assert (Hgen : forall pinfo,
            (default 0 (Report.pi_myopic_parents pinfo) <= 2)%Z ->
            returns (Report.risk_bullets pinfo)).
  { intros pinfo Hle. unfold Report.risk_bullets, returns.
    destruct (0 <? _)%Z eqn:Hpos; [|cbn; eauto].
    apply Z.ltb_lt in Hpos.
    assert (Hk : default 0%Z (Report.pi_myopic_parents pinfo) = 1%Z \/
                 default 0%Z (Report.pi_myopic_parents pinfo) = 2%Z) by lia.
    destruct Hk as [-> | ->]; cbn; eauto. }
  split; [apply Hgen|]. split.
  - intros Hgt. unfold Report.risk_bullets.
    assert (Hpos : (0 <? default 0 (Report.pi_myopic_parents patient_info))%Z
                   = true) by (apply Z.ltb_lt; lia).
    rewrite Hpos. unfold Model.py_index.
    assert (Hneg : (default 0 (Report.pi_myopic_parents patient_info) <? 0)%Z
                   = false) by (apply Z.ltb_ge; lia).
    rewrite Hneg, Hneg.
    rewrite (proj2 (lookup_ge_None Report.parent_labels _));
      [reflexivity|cbn; lia].
  - intros p d Hd. apply Hgen. cbn [ApiReport.patient_info Report.pi_myopic_parents].
    revert Hd. unfold Api.derive. destruct (Api.py_div _ _); [|discriminate].
    cbn [mbind exc_bind mret exc_ret]. intros [= <-].
    cbn [Api.myopic_parents_encoded default]. apply parents_code_range.
Qed.

Lemma report_bullets_index_witness :
  Report.risk_bullets
    {| Report.pi_age := Some 9; Report.pi_myopic_parents := Some 3%Z;
       Report.pi_screen_hours := None; Report.pi_outdoor_hours := None;
       Report.pi_myopia_severity := None;
       Report.pi_avg_axial_length := None;
       Report.pi_compliance_score := None |} = Raise IndexError.
Proof.
  apply report_bullets_index.
  cbn. lia.
Defined.

(** X26.  A request whose total risk score is 0 has no line in the report's
    list of risk factors ("No significant risk factors identified"), and
    unless the predicted label is "High Risk" it gets the three general
    recommendations only. *)
Theorem zero_score_clean_report (p : Api.PatientData) (d : Api.Derived)
    (risk_category : string) :
  Api.derive p = Ret d ->
  scorer_total p (Api.avg_spherical d) (Api.myopia_severity d)
    (Api.avg_axial_length d) (Api.compliance_score d)
    (Api.myopic_parents_encoded d) == 0 ->
  risk_category <> "High Risk" ->
  Report.risk_bullets (ApiReport.patient_info p d) = Ret [] /\
  Report._generate_recommendations (ApiReport.patient_info p d) risk_category
    = [Report.WearLenses; Report.ReadingDistance; Report.NutritionalSupport].
Proof.
  intros Hd Htot Hcat.
  assert (Hmp : (0 <= Api.myopic_parents_encoded d <= 2)%Z).
  { revert Hd. unfold Api.derive. destruct (Api.py_div _ _); [|discriminate].
    cbn [mbind exc_bind mret exc_ret]. intros [= <-].
    cbn [Api.myopic_parents_encoded]. apply parents_code_range. }
  rewrite scorer_total_unfold in Htot.
  destruct (factor_scores_nonneg (Api.age p) (Api.myopic_parents_encoded d)
              (Api.myopia_severity d) (Api.avg_axial_length d)
              (Api.screen_hours p) (Api.outdoor_hours p)
              (Api.compliance_score d)) as (N1 & N2 & N3 & N4 & N5 & N6 & N7).
  assert (Z1 : Api.score (Api.age_factor (Api.age p)) == 0) by lra.
  assert (Z2 : Api.score (Api.genetics_factor (Api.myopic_parents_encoded d)) == 0)
    by lra.
  assert (Z3 : Api.score (Api.severity_factor (Api.myopia_severity d)) == 0)
    by lra.
  assert (Z4 : Api.score (Api.axial_factor (Api.avg_axial_length d)) == 0)
    by lra.
  assert (Z5 : Api.score (Api.screen_factor (Api.screen_hours p)) == 0) by lra.
  assert (Z6 : Api.score (Api.outdoor_factor (Api.outdoor_hours p)) == 0) by lra.
  assert (Z7 : Api.score (Api.compliance_factor (Api.compliance_score d)) == 0)
    by lra.
  clear Htot N1 N2 N3 N4 N5 N6 N7.
  assert (A1 : 12 <= Api.age p).
  { revert Z1. unfold Api.age_factor. qcases; intros H; try lra;
      exfalso; revert H; vm_compute; discriminate. }
  assert (A2 : Api.myopic_parents_encoded d = 0%Z).
  { revert Z2. unfold Api.genetics_factor. qcases; intros H; try lia;
      exfalso; revert H; vm_compute; discriminate. }
  assert (A3 : Api.myopia_severity d <= 3 # 2).
  { revert Z3. unfold Api.severity_factor. qcases; intros H; try lra;
      exfalso; revert H; vm_compute; discriminate. }
  assert (A4 : Api.avg_axial_length d <= 24).
  { revert Z4. unfold Api.axial_factor. qcases; intros H; try lra;
      exfalso; revert H; vm_compute; discriminate. }
  assert (A5 : Api.screen_hours p <= 3).
  { revert Z5. unfold Api.screen_factor. qcases; intros H; try lra;
      exfalso; revert H; vm_compute; discriminate. }
  assert (A6 : 2 <= Api.outdoor_hours p).
  { revert Z6. unfold Api.outdoor_factor. qcases; intros H; try lra;
      exfalso; revert H; vm_compute; discriminate. }
  assert (A7 : 9 # 10 <= Api.compliance_score d).
  { revert Z7. unfold Api.compliance_factor. qcases; intros H; try lra;
      exfalso; revert H; vm_compute; discriminate. }
  clear Z1 Z2 Z3 Z4 Z5 Z6 Z7.
  unfold Report.risk_bullets, Report._generate_recommendations.
  cbn [ApiReport.patient_info Report.pi_age Report.pi_myopic_parents
       Report.pi_screen_hours Report.pi_outdoor_hours
       Report.pi_myopia_severity Report.pi_avg_axial_length
       Report.pi_compliance_score default].
  rewrite A2.
  destruct (String.eqb_spec risk_category "High Risk") as [E|_];
    [contradiction|].
  change (0 <? 0)%Z with false.
  cbn [mbind exc_bind mret exc_ret].
  qcases; unfold id in *; try (exfalso; lra). split; reflexivity.
Qed.

Lemma zero_score_clean_report_witness :
  match Api.derive Samples.calm with
  | Ret d => Report.risk_bullets (ApiReport.patient_info Samples.calm d) = Ret []
  | Raise _ => False
  end.
Proof.
  destruct (Api.derive Samples.calm) as [d|e] eqn:E.
  - refine (proj1 (zero_score_clean_report _ d "Low Risk" E _ _)).
    + vm_compute in E. injection E as <-. vm_compute. reflexivity.
    + discriminate.
  - vm_compute in E. discriminate E.
Defined.

(** X27.  The recommendations always open with the wearing advice and close
    with the nutrition advice, and number between 3 and 9; the atropine
    and three-month follow-up advice appear exactly for the label
    "High Risk", the compliance advice exactly below a compliance score
    of 0.8 (absent score: 1), the axial-length advice exactly above
    24.5 mm (absent length: 23). *)
Theorem recommendations_shape (patient_info : Report.PatientInfo)
    (risk_category : string) :
  let rs := Report._generate_recommendations patient_info risk_category in
  (3 <= length rs <= 9)%nat /\
  head rs = Some Report.WearLenses /\
  last rs = Some Report.NutritionalSupport /\
  (Report.ConsiderAtropine ∈ rs <-> risk_category = "High Risk") /\
  (Report.FrequentFollowUps ∈ rs <-> risk_category = "High Risk") /\
  (Report.ImproveCompliance ∈ rs <->
   default 1 (Report.pi_compliance_score patient_info) < 8 # 10) /\
  (Report.MonitorAxialLength ∈ rs <->
   245 # 10 < default 23 (Report.pi_avg_axial_length patient_info)).
Proof.
  cbv zeta. unfold Report._generate_recommendations.
  destruct (String.eqb_spec risk_category "High Risk") as [E|E];
    qcases;
    (split; [lia|]); (split; [reflexivity|]);
    (split; [reflexivity|]);
    repeat split; intros H; try assumption; try lra; try congruence;
    try (repeat constructor; fail);
    elem_inv; try assumption; try lra; try congruence.
Qed.

(** X5.  Once a model is in memory a request changes neither the global nor
    the files, whatever the request and whether or not it succeeds; what
    it returns is the response computed from that model, or
    [HTTPException] when computing it raised. *)
Theorem predict_leaves_state (py_float : string -> exc fval)
    (train_models : Model.MyopiaPredictionModel -> list Model.Processed ->
                    exc Model.MyopiaPredictionModel)
    (w : Api.World) (m : Model.MyopiaPredictionModel) (p : Api.PatientData) :
  Api.model w = Some m ->
  (Api.predict py_float train_models w p).1 = w /\
  match Api.respond m p with
  | Ret r => (Api.predict py_float train_models w p).2 = Ret r
  | Raise _ => (Api.predict py_float train_models w p).2 = Raise HTTPException
  end.
Proof.
  intros Hm. unfold Api.predict, Api.load_model. rewrite Hm.
  cbn [fst snd]. split; [reflexivity|].
  destruct (Api.respond m p); reflexivity.
Qed.

Lemma predict_leaves_state_witness :
  (Api.predict DecimalFloat.py_float (Samples.train_to Model.init)
     (Samples.trained_world (Samples.fitted [0; 1; 2]%Z (1 # 2)))
     Samples.scenario).1
  = Samples.trained_world (Samples.fitted [0; 1; 2]%Z (1 # 2)).
Proof.
  exact (proj1 (predict_leaves_state DecimalFloat.py_float
                  (Samples.train_to Model.init)
                  (Samples.trained_world (Samples.fitted [0; 1; 2]%Z (1 # 2)))
                  (Samples.fitted [0; 1; 2]%Z (1 # 2))
                  Samples.scenario eq_refl)).
Defined.
